(** * nhl_schedule: the team aggregator and the rows of the dashboard table

    A shallow embedding of [utils/nhl_api.py] and of the callback
    [update_table] of [app.py].

    - [PyDict]: a Python [dict] as the program uses it, an insertion-ordered
      association list (a key that is assigned again keeps its position, a
      new key goes to the end).
    - [nhl_api]: [get_game_by_teams] over the schedule as the NHL API
      documents it (the docstring of [get_games_by_dates]): integer team
      ids, string game types and dates.  The HTTP request is the boundary:
      the schedule it returns is the input of the embedding.
    - [app]: the rows, the sort and the result of [update_table].
    - [raw]: [get_game_by_teams] again over untyped JSON, every subscript
      and every hash fallible, as Python evaluates it. *)

From Stdlib Require Import List ZArith String Ascii Bool Arith Lia.
From Stdlib Require Import Permutation Sorted DecimalString.
From Stdlib Require DecimalPos DecimalZ.
Import ListNotations.

Set Implicit Arguments.

(* ================================================================== *)
(** * Definitions *)
(* ================================================================== *)

(** ** Exceptions

    The three exceptions the two source files can raise on their own
    data, and the result of a computation that may raise one. *)

Inductive exn : Type :=
| KeyError
| TypeError
| IndexError.

Inductive result (A : Type) : Type :=
| Ok (a : A)
| Raise (e : exn).

Arguments Ok {A} a.
Arguments Raise {A} e.

Definition bind {A B : Type} (c : result A) (k : A -> result B) : result B :=
  match c with
  | Ok a => k a
  | Raise e => Raise e
  end.

Declare Scope py_scope.
Delimit Scope py_scope with py.
Notation "x <- c ;; k" := (bind c (fun x => k))
  (at level 61, c at next level, right associativity) : py_scope.

(** [for x in xs: acc = body acc x], stopping at the first exception. *)
Fixpoint for_each {A S : Type} (body : S -> A -> result S) (xs : list A) (acc : S)
  : result S :=
  match xs with
  | [] => Ok acc
  | x :: rest => bind (body acc x) (for_each body rest)
  end.

(** ** Python dictionaries *)

Module PyDict.
Section Dict.
Variables K V : Type.
Variable eqb : K -> K -> bool.

(** The items of the dictionary, in insertion order. *)
Definition dict : Type := list (K * V).

(** [k in m] *)
Fixpoint contains (k : K) (m : dict) : bool :=
  match m with
  | [] => false
  | (k', _) :: rest => if eqb k k' then true else contains k rest
  end.

(** [m[k]]; [None] where Python raises [KeyError]. *)
Fixpoint get (k : K) (m : dict) : option V :=
  match m with
  | [] => None
  | (k', v) :: rest => if eqb k k' then Some v else get k rest
  end.

(** [m[k] = v]: an existing key keeps its key object and its position. *)
Fixpoint set (k : K) (v : V) (m : dict) : dict :=
  match m with
  | [] => [(k, v)]
  | (k', v') :: rest =>
      if eqb k k' then (k', v) :: rest else (k', v') :: set k v rest
  end.

(** [list(m.keys())] and [m.items()] *)
Definition keys (m : dict) : list K := map fst m.
Definition items (m : dict) : list (K * V) := m.
End Dict.
End PyDict.

(** ** [utils/nhl_api.py] *)

Module nhl_api.

(** A game of the schedule: [game['gameType']],
    [game['teams']['home']['team']['id']] and
    [game['teams']['away']['team']['id']]. *)
Record Game : Type := {
  gameType : string;
  teams_home_team_id : Z;
  teams_away_team_id : Z
}.

(** An element of [dates]: [date['date']] and [date['games']]. *)
Record DateGroup : Type := {
  date : string;
  games : list Game
}.

(** The dictionary literal [{'date': .., 'against': .., 'location': ..,
    'type': ..}] appended to a team's list. *)
Record TeamGameRecord : Type := {
  rec_date : string;
  against : Z;
  location : string;
  type : string
}.

Definition ScheduleIndex : Type := PyDict.dict Z (list TeamGameRecord).

Definition contains := @PyDict.contains Z (list TeamGameRecord) Z.eqb.
Definition get := @PyDict.get Z (list TeamGameRecord) Z.eqb.
Definition set := @PyDict.set Z (list TeamGameRecord) Z.eqb.

(** [game_type == 'all' or game_type == game['gameType']] *)
Definition passes (game_type : string) (game : Game) : bool :=
  String.eqb game_type "all" || String.eqb game_type (gameType game).

(** The two branches of [if team in games_per_team: ... else: ...]
    (lines 138-151 for the home team, 153-166 for the away team):
    [games_per_team[team] = games_per_team[team] + [r]] when the key is
    there, [games_per_team[team] = [r]] when it is not.  The key is there
    exactly when [get] finds its list. *)
Definition add_record (team : Z) (r : TeamGameRecord) (games_per_team : ScheduleIndex)
  : ScheduleIndex :=
  match get team games_per_team with
  | Some played => set team (played ++ [r]) games_per_team
  | None => set team [r] games_per_team
  end.

(** The body of the inner loop (lines 134-166), for one [game] of the
    group dated [d]. *)
Definition process_game (game_type : string) (d : string)
           (games_per_team : ScheduleIndex) (game : Game) : ScheduleIndex :=
  if passes game_type game then
    let home := teams_home_team_id game in
    let away := teams_away_team_id game in
    let with_home :=
      add_record home
        {| rec_date := d; against := away; location := "home";
           type := gameType game |} games_per_team in
    add_record away
      {| rec_date := d; against := home; location := "away";
         type := gameType game |} with_home
  else games_per_team.

(** Lines 131-168: [for date in schedule: for game in date['games']: ...],
    from [games_per_team = {}].  [schedule] is what
    [get_games_by_dates(start_date, end_date)] returned. *)
Definition get_game_by_teams (schedule : list DateGroup) (game_type : string)
  : ScheduleIndex :=
  fold_left
    (fun games_per_team d =>
       fold_left (process_game game_type (date d)) (games d) games_per_team)
    schedule [].

(** [TEAM_ABBR] *)
Definition TEAM_ABBR : PyDict.dict string string :=
  [ ("1", "NJD"); ("2", "NYI"); ("3", "NYR"); ("4", "PHI"); ("5", "PIT");
    ("6", "BOS"); ("7", "BUF"); ("8", "MTL"); ("9", "OTT"); ("10", "TOR");
    ("12", "CAR"); ("13", "FLA"); ("14", "TBL"); ("15", "WSH"); ("16", "CHI");
    ("17", "DET"); ("18", "NSH"); ("19", "STL"); ("20", "CGY"); ("21", "COL");
    ("22", "EDM"); ("23", "VAN"); ("24", "ANA"); ("25", "DAL"); ("26", "LAK");
    ("28", "SJS"); ("29", "CBJ"); ("30", "MIN"); ("52", "WPG"); ("53", "ARI");
    ("54", "VGK"); ("55", "SEA") ]%string.

End nhl_api.

(** ** [app.py]: the callback [update_table] *)

Module app.
Import nhl_api.
Local Open Scope py_scope.

(** A row [{'team': .., 'game_count': ..}] of the table. *)
Record Row : Type := {
  team : string;
  game_count : nat
}.

(** [str(team_id)] on an integer: its decimal numeral. *)
Definition str (team_id : Z) : string :=
  NilZero.string_of_int (Z.to_int team_id).

(** [s in team_ids], on a list of strings. *)
Definition in_list (s : string) (team_ids : list string) : bool :=
  existsb (String.eqb s) team_ids.

(** [teams[k]] *)
Definition subscript (teams : PyDict.dict string string) (k : string)
  : result string :=
  match PyDict.get String.eqb k teams with
  | Some abbr => Ok abbr
  | None => Raise KeyError
  end.

(** The list comprehension that builds [data]: one row per item of
    [team_schdule] whose [str(team_id)] is in [team_ids]. *)
Fixpoint build_data (teams : PyDict.dict string string) (team_ids : list string)
         (items : list (Z * list TeamGameRecord)) : result (list Row) :=
  match items with
  | [] => Ok []
  | (team_id, played) :: rest =>
      if in_list (str team_id) team_ids then
        abbr <- subscript teams (str team_id) ;;
        rows <- build_data teams team_ids rest ;;
        Ok ({| team := abbr; game_count := List.length played |} :: rows)
      else build_data teams team_ids rest
  end.

(** [data.sort(key=.., reverse=True)].  Python's sort is stable, also
    with [reverse=True]: elements with equal keys keep their order.  It is
    embedded as the stable insertion sort by descending key; [x] comes
    before every element of [sorted] in the list being sorted, so it is
    put before the first element whose key is not greater.  Descending
    order and stability leave one possible result, whatever the algorithm
    ([sort_reverse_unique]). *)
Section Sort.
Variable A : Type.
Variable key : A -> nat.

Fixpoint insert_desc (x : A) (sorted : list A) : list A :=
  match sorted with
  | [] => [x]
  | y :: rest =>
      if key y <=? key x then x :: y :: rest else y :: insert_desc x rest
  end.

Definition sort_reverse (l : list A) : list A :=
  fold_right insert_desc [] l.

(** The order of the sorted list: [a] may come before [b]. *)
Definition desc (a b : A) : Prop := key b <= key a.
End Sort.

(** [data[i]] *)
Definition item (data : list Row) (i : nat) : result Row :=
  match nth_error data i with
  | Some r => Ok r
  | None => Raise IndexError
  end.

(** What the callback returns for [table-container]: the placeholder
    string, or the [DataTable] with its rows and the two counts of the
    [filter_query] highlights. *)
Inductive Children : Type :=
| Placeholder (text : string)
| DataTable (data : list Row) (highest_count lowest_count : nat).

(** Lines 134-143: [teams], [team_ids] and [data]. *)
Definition make_data (team_schdule : ScheduleIndex) : result (list Row) :=
  let teams := TEAM_ABBR in
  let team_ids := PyDict.keys TEAM_ABBR in
  build_data teams team_ids (PyDict.items team_schdule).

(** Lines 145-187: the placeholder, replaced by the table [if data:]. *)
Definition make_table (data : list Row) : result Children :=
  match data with
  | [] => Ok (Placeholder "No data retrieved...")
  | _ :: _ =>
      let data := sort_reverse game_count data in
      first <- item data 0 ;;
      last <- item data (List.length data - 1) ;;
      Ok (DataTable data (game_count first) (game_count last))
  end.

(** [update_table] (lines 131-187), with the schedule that
    [get_games_by_dates] fetched for [start_date] and [end_date] as its
    input. *)
Definition update_table (schedule : list DateGroup) (game_type : string)
  : result Children :=
  let team_schdule := get_game_by_teams schedule game_type in
  data <- make_data team_schdule ;;
  make_table data.

End app.

(** ** [get_game_by_teams] over untyped JSON

    The value of [json.loads]: [None], booleans, integers, strings, lists
    and dictionaries (the items of a dictionary in order, its keys
    distinct).  Floating-point numbers are left out: the program never
    reads one.  No recursion over a value is needed, so no induction
    principle is generated. *)

Unset Elimination Schemes.
Inductive JSON : Type :=
| JNull
| JBool (b : bool)
| JNum (z : Z)
| JStr (s : string)
| JArr (elements : list JSON)
| JObj (members : list (string * JSON)).
Set Elimination Schemes.

Module raw.
Local Open Scope py_scope.

(** [v[k]] for a string [k]: [KeyError] when a dictionary lacks the key,
    [TypeError] when [v] is not a dictionary. *)
Definition subscript (v : JSON) (k : string) : result JSON :=
  match v with
  | JObj members =>
      match PyDict.get String.eqb k members with
      | Some x => Ok x
      | None => Raise KeyError
      end
  | _ => Raise TypeError
  end.

(** [for x in v]: the elements of a list, the keys of a dictionary, the
    characters of a string; [TypeError] on the other values. *)
Definition iterate (v : JSON) : result (list JSON) :=
  match v with
  | JArr elements => Ok elements
  | JObj members => Ok (map (fun kv => JStr (fst kv)) members)
  | JStr s => Ok (map (fun c => JStr (String c EmptyString)) (list_ascii_of_string s))
  | _ => Raise TypeError
  end.

(** Lists and dictionaries cannot be hashed. *)
Definition hashable (v : JSON) : bool :=
  match v with
  | JArr _ | JObj _ => false
  | _ => true
  end.

(** Equality of dictionary keys: [True == 1] and [False == 0]. *)
Definition key_eqb (a b : JSON) : bool :=
  match a, b with
  | JNull, JNull => true
  | JBool x, JBool y => Bool.eqb x y
  | JBool x, JNum z | JNum z, JBool x => Z.eqb z (if x then 1 else 0)
  | JNum x, JNum y => Z.eqb x y
  | JStr x, JStr y => String.eqb x y
  | _, _ => false
  end.

(** [game_type == v] for the string [game_type]. *)
Definition str_eq (game_type : string) (v : JSON) : bool :=
  match v with
  | JStr s => String.eqb game_type s
  | _ => false
  end.

Definition ScheduleIndex : Type := PyDict.dict JSON (list JSON).

(** [k in games_per_team]: hashes [k] first. *)
Definition contains (k : JSON) (games_per_team : ScheduleIndex) : result bool :=
  if hashable k then Ok (PyDict.contains key_eqb k games_per_team)
  else Raise TypeError.

(** [games_per_team[k]] *)
Definition get (k : JSON) (games_per_team : ScheduleIndex) : result (list JSON) :=
  if hashable k then
    match PyDict.get key_eqb k games_per_team with
    | Some played => Ok played
    | None => Raise KeyError
    end
  else Raise TypeError.

(** [games_per_team[k] = v] *)
Definition set (k : JSON) (v : list JSON) (games_per_team : ScheduleIndex)
  : result ScheduleIndex :=
  if hashable k then Ok (PyDict.set key_eqb k v games_per_team)
  else Raise TypeError.

(** [{'date': date['date'], 'against': other, 'location': side,
     'type': game['gameType']}], its values evaluated in this order. *)
Definition record (date game other : JSON) (side : string) : result JSON :=
  d <- subscript date "date" ;;
  t <- subscript game "gameType" ;;
  Ok (JObj [("date", d); ("against", other); ("location", JStr side);
            ("type", t)]%string).

(** [if team in games_per_team: .. else: ..] *)
Definition add_record (date game team other : JSON) (side : string)
           (games_per_team : ScheduleIndex) : result ScheduleIndex :=
  present <- contains team games_per_team ;;
  if present : bool then
    played <- get team games_per_team ;;
    r <- record date game other side ;;
    set team (played ++ [r]) games_per_team
  else
    r <- record date game other side ;;
    set team [r] games_per_team.

(** [game['teams'][side]['team']['id']] *)
Definition team_id (game : JSON) (side : string) : result JSON :=
  teams <- subscript game "teams" ;;
  entry <- subscript teams side ;;
  t <- subscript entry "team" ;;
  subscript t "id".

(** [game_type == 'all' or game_type == game['gameType']]: the right
    operand is evaluated only when the left one is false. *)
Definition passes (game_type : string) (game : JSON) : result bool :=
  if String.eqb game_type "all" then Ok true
  else t <- subscript game "gameType" ;; Ok (str_eq game_type t).

(** The body of the inner loop: [home] and [away] are read only for a
    game that passes the filter. *)
Definition process_game (game_type : string) (date : JSON)
           (games_per_team : ScheduleIndex) (game : JSON) : result ScheduleIndex :=
  selected <- passes game_type game ;;
  if selected : bool then
    home <- team_id game "home" ;;
    away <- team_id game "away" ;;
    with_home <- add_record date game home away "home" games_per_team ;;
    add_record date game away home "away" with_home
  else Ok games_per_team.

(** The body of the outer loop: [for game in date['games']: ...] *)
Definition process_date (game_type : string) (games_per_team : ScheduleIndex)
           (date : JSON) : result ScheduleIndex :=
  listed <- subscript date "games" ;;
  games <- iterate listed ;;
  for_each (process_game game_type date) games games_per_team.

(** [for date in schedule: ...], from [games_per_team = {}]. *)
Definition get_game_by_teams (schedule : JSON) (game_type : string)
  : result ScheduleIndex :=
  dates <- iterate schedule ;;
  for_each (process_date game_type) dates [].

(** *** Well-formed input

    The shape the schedule endpoint documents: a list of date groups,
    each with a ['date'] and a list ['games'], each game with
    ['gameType'] and the two team ids. *)

Definition present (c : result JSON) : bool :=
  match c with
  | Ok _ => true
  | Raise _ => false
  end.

Definition well_formed_game (game : JSON) : bool :=
  present (subscript game "gameType")
  && present (team_id game "home")
  && present (team_id game "away").

Definition well_formed_date (date : JSON) : bool :=
  present (subscript date "date")
  && match subscript date "games" with
     | Ok (JArr games) => forallb well_formed_game games
     | _ => false
     end.

Definition well_formed (schedule : JSON) : bool :=
  match schedule with
  | JArr dates => forallb well_formed_date dates
  | _ => false
  end.

(** The two team ids of every game can be dictionary keys. *)
Definition hashable_id (c : result JSON) : bool :=
  match c with
  | Ok v => hashable v
  | Raise _ => true
  end.

Definition hashable_ids_game (game : JSON) : bool :=
  hashable_id (team_id game "home") && hashable_id (team_id game "away").

Definition hashable_ids_date (date : JSON) : bool :=
  match subscript date "games" with
  | Ok (JArr games) => forallb hashable_ids_game games
  | _ => true
  end.

Definition hashable_ids (schedule : JSON) : bool :=
  match schedule with
  | JArr dates => forallb hashable_ids_date dates
  | _ => true
  end.

(** *** The typed schedule as JSON *)

Definition encode_team (id : Z) : JSON :=
  JObj [("team", JObj [("id", JNum id)])]%string.

Definition encode_game (game : nhl_api.Game) : JSON :=
  JObj [("gameType", JStr (nhl_api.gameType game));
        ("teams", JObj [("away", encode_team (nhl_api.teams_away_team_id game));
                        ("home", encode_team (nhl_api.teams_home_team_id game))])
       ]%string.

Definition encode_date (d : nhl_api.DateGroup) : JSON :=
  JObj [("date", JStr (nhl_api.date d));
        ("games", JArr (map encode_game (nhl_api.games d)))]%string.

Definition encode_schedule (schedule : list nhl_api.DateGroup) : JSON :=
  JArr (map encode_date schedule).

Definition encode_record (r : nhl_api.TeamGameRecord) : JSON :=
  JObj [("date", JStr (nhl_api.rec_date r));
        ("against", JNum (nhl_api.against r));
        ("location", JStr (nhl_api.location r));
        ("type", JStr (nhl_api.type r))]%string.

Definition encode_index (m : nhl_api.ScheduleIndex) : ScheduleIndex :=
  map (fun kv => (JNum (fst kv), map encode_record (snd kv))) m.

End raw.

(** ** Vocabulary of the statements *)

Module view.
Import nhl_api.

(** [games_per_team.get(team, [])]: the list of a team, empty when the
    team is not a key. *)
Definition played_by (team : Z) (games_per_team : ScheduleIndex)
  : list TeamGameRecord :=
  match get team games_per_team with
  | Some played => played
  | None => []
  end.

(** Every game of every date group with the date of its group, in the
    order the two loops visit them. *)
Definition all_games (schedule : list DateGroup) : list (string * Game) :=
  flat_map (fun d => map (pair (date d)) (games d)) schedule.

(** The sum over the keys of the lengths of their lists. *)
Definition total_records (games_per_team : ScheduleIndex) : nat :=
  list_sum (map (fun kv => List.length (snd kv)) (PyDict.items games_per_team)).

(** The number of games of the schedule that match the filter. *)
Definition matching_games (schedule : list DateGroup) (game_type : string) : nat :=
  List.length (filter (fun dg => passes game_type (snd dg)) (all_games schedule)).

(** The number of matching games in which [team] is the home side, and
    the number in which it is the away side. *)
Definition home_games (schedule : list DateGroup) (game_type : string) (team : Z) : nat :=
  List.length (filter (fun dg => passes game_type (snd dg)
                                 && Z.eqb (teams_home_team_id (snd dg)) team)
                      (all_games schedule)).

Definition away_games (schedule : list DateGroup) (game_type : string) (team : Z) : nat :=
  List.length (filter (fun dg => passes game_type (snd dg)
                                 && Z.eqb (teams_away_team_id (snd dg)) team)
                      (all_games schedule)).

(** What a game contributes to the list of [team]: the record of the home
    side when [team] is at home, then the record of the away side when
    [team] is away, and nothing when the filter rejects the game. *)
Definition contribution (game_type : string) (team : Z) (dg : string * Game)
  : list TeamGameRecord :=
  let (d, game) := dg in
  if passes game_type game then
    (if Z.eqb (teams_home_team_id game) team
     then [{| rec_date := d; against := teams_away_team_id game;
              location := "home"; type := gameType game |}]
     else [])
    ++
    (if Z.eqb (teams_away_team_id game) team
     then [{| rec_date := d; against := teams_home_team_id game;
              location := "away"; type := gameType game |}]
     else [])
  else [].

(** The body of the inner loop on a game paired with the date of its
    group. *)
Definition step (game_type : string) (m : ScheduleIndex) (dg : string * Game)
  : ScheduleIndex :=
  process_game game_type (fst dg) m (snd dg).

(** A team id whose [str] is a key of [TEAM_ABBR]. *)
Definition in_directory (team : Z) : bool :=
  app.in_list (app.str team) (PyDict.keys TEAM_ABBR).
End view.

(** ** Schedules for the examples *)

Module sample.
Import nhl_api.

(** The scenario of the specification: Boston (6) at home against
    Washington (15) on 2022-10-12, a regular-season game. *)
Definition boston_washington : list DateGroup :=
  [ {| date := "2022-10-12";
       games := [ {| gameType := "R"; teams_home_team_id := 6;
                     teams_away_team_id := 15 |} ] |} ].

(** A home-and-home series: the same two teams on two dates, and a third
    game of another type. *)
Definition home_and_home : list DateGroup :=
  [ {| date := "2022-10-12";
       games := [ {| gameType := "R"; teams_home_team_id := 6;
                     teams_away_team_id := 15 |};
                  {| gameType := "PR"; teams_home_team_id := 8;
                     teams_away_team_id := 99 |} ] |};
    {| date := "2022-10-13";
       games := [ {| gameType := "R"; teams_home_team_id := 15;
                     teams_away_team_id := 6 |} ] |} ].

(** Three rows as the comprehension would build them. *)
Definition three_rows : list app.Row :=
  [ {| app.team := "BOS"; app.game_count := 1 |};
    {| app.team := "WSH"; app.game_count := 2 |};
    {| app.team := "MTL"; app.game_count := 1 |} ].

(** Every field is there, but the id of the home team is a list. *)
Definition list_as_team_id : JSON :=
  JArr [ JObj [ ("date", JStr "2022-10-12");
                ("games",
                 JArr [ JObj [ ("gameType", JStr "R");
                               ("teams",
                                JObj [ ("away", raw.encode_team 15);
                                       ("home",
                                        JObj [ ("team",
                                                JObj [ ("id", JArr []) ]) ]) ])
                             ] ]) ] ]%string.

(** A regular-season game without ['teams'], in a group without
    ['date']. *)
Definition game_without_teams : JSON :=
  JArr [ JObj [ ("games", JArr [ JObj [ ("gameType", JStr "R") ] ]) ] ]%string.

End sample.

(** ** [get_games_by_dates] and the entry point of [get_game_by_teams] *)

Module fetch.
Local Open Scope py_scope.

(** The f-string of line 108: the two dates are put in the query as they
    are. *)
Definition schedule_url (start_date end_date : string) : string :=
  ("https://statsapi.web.nhl.com/api/v1/schedule?startDate=" ++ start_date
   ++ "&endDate=" ++ end_date)%string.

Section Transport.
(** [json.loads(requests.get(url).text)]: the parsed body of the response
    to a request.  The request and the parser belong to the libraries;
    when one of them raises, no line of the program runs after it. *)
Variable response : string -> JSON.

(** Lines 108-110: [return r_dict['dates']]. *)
Definition get_games_by_dates (start_date end_date : string) : result JSON :=
  let r_dict := response (schedule_url start_date end_date) in
  raw.subscript r_dict "dates".

(** Lines 129-168: [schedule = get_games_by_dates(start_date, end_date)],
    then the two loops. *)
Definition get_game_by_teams (start_date end_date game_type : string)
  : result raw.ScheduleIndex :=
  schedule <- get_games_by_dates start_date end_date ;;
  raw.get_game_by_teams schedule game_type.
End Transport.
End fetch.

(** ** [GAME_TYPES] of [app.py] *)

Module dropdown.

(** The options of the selector, as pairs of ['label'] and ['value']. *)
Definition GAME_TYPES : list (string * string) :=
  [ ("All", "all"); ("Pre-Season", "PR"); ("Regular Season", "R");
    ("Post-Season", "P") ]%string.

(** The values that select one type of game. *)
Definition specific_types : list string :=
  filter (fun value => negb (String.eqb value "all")) (map snd GAME_TYPES).

End dropdown.

(** ** Vocabulary of the further statements *)

Module typed.
Import nhl_api.

(** [f] on every element, when it is defined on all of them. *)
Fixpoint traverse {A B : Type} (f : A -> option B) (l : list A) : option (list B) :=
  match l with
  | [] => Some []
  | x :: rest =>
      match f x, traverse f rest with
      | Some y, Some ys => Some (y :: ys)
      | _, _ => None
      end
  end.

(** The typed reading of a JSON schedule: the five fields the loops read,
    a string for the type and the date, an integer for each team id.
    Every other member of the objects is ignored. *)
Definition decode_game (game : JSON) : option Game :=
  match raw.subscript game "gameType",
        raw.team_id game "home", raw.team_id game "away" with
  | Ok (JStr t), Ok (JNum home), Ok (JNum away) =>
      Some {| gameType := t; teams_home_team_id := home;
              teams_away_team_id := away |}
  | _, _, _ => None
  end.

Definition decode_date (date : JSON) : option DateGroup :=
  match raw.subscript date "date", raw.subscript date "games" with
  | Ok (JStr d), Ok (JArr listed) =>
      match traverse decode_game listed with
      | Some played => Some {| nhl_api.date := d; games := played |}
      | None => None
      end
  | _, _ => None
  end.

Definition decode_schedule (schedule : JSON) : option (list DateGroup) :=
  match schedule with
  | JArr dates => traverse decode_date dates
  | _ => None
  end.

(** The two teams of every matching game, in the order the loops meet
    them. *)
Definition participants (schedule : list DateGroup) (game_type : string) : list Z :=
  flat_map (fun dg : string * Game =>
              if passes game_type (snd dg)
              then [teams_home_team_id (snd dg); teams_away_team_id (snd dg)]
              else [])
           (view.all_games schedule).

(** A list without its repetitions, each element where it first occurs. *)
Definition first_seen (teams : list Z) : list Z :=
  fold_left (fun seen team =>
               if existsb (Z.eqb team) seen then seen else seen ++ [team])
            teams [].

(** The record of the other side of the same game. *)
Definition mirror (team : Z) (r : TeamGameRecord) : TeamGameRecord :=
  {| rec_date := rec_date r; against := team;
     location := if String.eqb (location r) "home" then "away" else "home";
     type := type r |}.

End typed.

(** ** When the untyped aggregator raises *)

Module reads.
Import raw.

(** The reads and the hashes of one pass of the inner loop succeed. *)
Definition game_ok (game_type : string) (date game : JSON) : bool :=
  match passes game_type game with
  | Raise _ => false
  | Ok false => true
  | Ok true =>
      match team_id game "home", team_id game "away" with
      | Ok home, Ok away =>
          hashable home && hashable away
          && present (subscript date "date")
          && present (subscript game "gameType")
      | _, _ => false
      end
  end.

Definition date_ok (game_type : string) (date : JSON) : bool :=
  match subscript date "games" with
  | Ok listed =>
      match iterate listed with
      | Ok games => forallb (game_ok game_type date) games
      | Raise _ => false
      end
  | Raise _ => false
  end.

Definition schedule_ok (game_type : string) (schedule : JSON) : bool :=
  match iterate schedule with
  | Ok dates => forallb (date_ok game_type) dates
  | Raise _ => false
  end.

(** The dictionary literal of a record: its four members in order, the
    location one of the two strings. *)
Definition is_record (r : JSON) : bool :=
  match r with
  | JObj [ (k1, _); (k2, other); (k3, JStr side); (k4, _) ] =>
      String.eqb k1 "date" && String.eqb k2 "against"
      && String.eqb k3 "location" && String.eqb k4 "type"
      && hashable other
      && (String.eqb side "home" || String.eqb side "away")
  | _ => false
  end.

(** An item of the result: a key that can be hashed and a non-empty list
    of records. *)
Definition is_item (kv : JSON * list JSON) : bool :=
  hashable (fst kv)
  && negb (Nat.eqb (List.length (snd kv)) 0)
  && forallb is_record (snd kv).

(** Two keys that Python does not identify. *)
Definition different (a b : JSON) : Prop := key_eqb a b = false.

(** What the loops keep true of [games_per_team]: every item has a
    hashable key and a non-empty list of records, and no two keys are
    equal as Python compares them. *)
Definition well_shaped (m : ScheduleIndex) : Prop :=
  forallb is_item m = true /\ ForallOrdPairs different (PyDict.keys m).

End reads.

(** ** Further samples *)

Module sample2.

(** The ['dates'] of the response in the docstring of
    [get_games_by_dates], with the one game it spells out: Boston (6) away
    at Washington (15). *)
Definition docstring_dates : JSON :=
  JArr [ JObj [ ("date", JStr "2022-10-12");
                ("totalItems", JNum 6); ("totalEvents", JNum 0);
                ("totalGames", JNum 6); ("totalMatches", JNum 0);
                ("games",
                 JArr [ JObj [
                   ("gamePk", JNum 2022020005);
                   ("link", JStr "/api/v1/game/2022020005/feed/live");
                   ("gameType", JStr "R");
                   ("season", JStr "20222023");
                   ("gameDate", JStr "2022-10-12T23:00:00Z");
                   ("status",
                    JObj [ ("abstractGameState", JStr "Final");
                           ("codedGameState", JStr "7");
                           ("detailedState", JStr "Final");
                           ("statusCode", JStr "7");
                           ("startTimeTBD", JBool false) ]);
                   ("teams",
                    JObj [ ("away",
                            JObj [ ("leagueRecord",
                                    JObj [ ("wins", JNum 1);
                                           ("losses", JNum 0);
                                           ("ot", JNum 0);
                                           ("type", JStr "league") ]);
                                   ("score", JNum 5);
                                   ("team",
                                    JObj [ ("id", JNum 6);
                                           ("name", JStr "Boston Bruins");
                                           ("link", JStr "/api/v1/teams/6") ]) ]);
                           ("home",
                            JObj [ ("leagueRecord",
                                    JObj [ ("wins", JNum 0);
                                           ("losses", JNum 1);
                                           ("ot", JNum 0);
                                           ("type", JStr "league") ]);
                                   ("score", JNum 2);
                                   ("team",
                                    JObj [ ("id", JNum 15);
                                           ("name", JStr "Washington Capitals");
                                           ("link", JStr "/api/v1/teams/15") ]) ]) ]);
                   ("venue",
                    JObj [ ("id", JNum 5094);
                           ("name", JStr "Capital One Arena");
                           ("link", JStr "/api/v1/venues/5094") ]);
                   ("content",
                    JObj [ ("link", JStr "/api/v1/game/2022020005/content") ])
                 ] ]) ] ]%string.

(** The whole response of the docstring. *)
Definition docstring_response : JSON :=
  JObj [ ("copyright", JStr "NHL and the NHL Shield are registered trademarks");
         ("totalItems", JNum 16); ("totalEvents", JNum 0);
         ("totalGames", JNum 16); ("totalMatches", JNum 0);
         ("metaData", JObj [ ("timeStamp", JStr "20221015_113647") ]);
         ("wait", JNum 10);
         ("dates", docstring_dates) ]%string.

(** Washington at home against Boston, as the docstring has it. *)
Definition washington_boston : list nhl_api.DateGroup :=
  [ {| nhl_api.date := "2022-10-12";
       nhl_api.games := [ {| nhl_api.gameType := "R";
                             nhl_api.teams_home_team_id := 15;
                             nhl_api.teams_away_team_id := 6 |} ] |} ].

(** A service that answers every request with the response of the
    docstring, and one that answers with an error message. *)
Definition docstring_service (url : string) : JSON := docstring_response.

Definition error_service (url : string) : JSON :=
  JObj [ ("messageNumber", JNum 10); ("message", JStr "Object not found") ]%string.


(** One game of each of the three types the selector offers. *)
Definition three_types : list nhl_api.DateGroup :=
  [ {| nhl_api.date := "2022-10-08";
       nhl_api.games := [ {| nhl_api.gameType := "PR";
                             nhl_api.teams_home_team_id := 6;
                             nhl_api.teams_away_team_id := 1 |} ] |};
    {| nhl_api.date := "2022-10-12";
       nhl_api.games := [ {| nhl_api.gameType := "R";
                             nhl_api.teams_home_team_id := 15;
                             nhl_api.teams_away_team_id := 6 |} ] |};
    {| nhl_api.date := "2023-04-17";
       nhl_api.games := [ {| nhl_api.gameType := "P";
                             nhl_api.teams_home_team_id := 6;
                             nhl_api.teams_away_team_id := 13 |} ] |} ].

End sample2.

(* ================================================================== *)
(** * Theorems *)
(* ================================================================== *)

Unset Implicit Arguments.

(** ** Dictionaries *)

Section DictFacts.
Variables K V : Type.
Variable eqb : K -> K -> bool.
Hypothesis eqb_eq : forall a b, eqb a b = true <-> a = b.

Abbreviation dict := (PyDict.dict K V).
Abbreviation contains := (@PyDict.contains K V eqb).
Abbreviation get := (@PyDict.get K V eqb).
Abbreviation set := (@PyDict.set K V eqb).

Lemma eqb_refl_true (a : K) : eqb a a = true.
Proof. now apply eqb_eq. Qed.

Lemma eqb_neq_false (a b : K) : a <> b -> eqb a b = false.
Proof.
  intros Hne. destruct (eqb a b) eqn:E; [|reflexivity].
  apply eqb_eq in E. contradiction.
Qed.

Lemma contains_get (k : K) (m : dict) :
  contains k m = match get k m with Some _ => true | None => false end.
Proof.
  induction m as [|[k' v'] m IH]; simpl; [reflexivity|].
  destruct (eqb k k'); [reflexivity | exact IH].
Qed.

Lemma get_set_same (k : K) (v : V) (m : dict) :
  get k (set k v m) = Some v.
Proof.
  induction m as [|[k' v'] m IH]; simpl.
  - now rewrite eqb_refl_true.
  - destruct (eqb k k') eqn:E; simpl; rewrite E; [reflexivity | exact IH].
Qed.

Lemma get_set_other (k k' : K) (v : V) (m : dict) :
  k <> k' -> get k' (set k v m) = get k' m.
Proof.
  intros Hne. induction m as [|[k0 v0] m IH]; simpl.
  - rewrite eqb_neq_false; [reflexivity | congruence].
  - destruct (eqb k k0) eqn:E; simpl.
    + apply eqb_eq in E. subst k0.
      rewrite eqb_neq_false; [reflexivity | congruence].
    + destruct (eqb k' k0); [reflexivity | exact IH].
Qed.

Lemma get_In (k : K) (v : V) (m : dict) : get k m = Some v -> In (k, v) m.
Proof.
  induction m as [|[k' v'] m IH]; simpl; [discriminate|].
  destruct (eqb k k') eqn:E.
  - apply eqb_eq in E. intros [= ->]. subst. now left.
  - intros H. right. now apply IH.
Qed.

Lemma In_get (k : K) (v : V) (m : dict) :
  NoDup (PyDict.keys m) -> In (k, v) m -> get k m = Some v.
Proof.
  induction m as [|[k' v'] m IH]; simpl; [contradiction|].
  intros Hnd [Heq | Hin].
  - injection Heq as -> ->. now rewrite eqb_refl_true.
  - inversion Hnd as [|? ? Hnotin Hnd']; subst.
    destruct (eqb k k') eqn:E.
    + apply eqb_eq in E. subst k'. exfalso. apply Hnotin.
      change k with (fst (k, v)). now apply in_map.
    + now apply IH.
Qed.

Lemma In_keys_get (k : K) (m : dict) :
  In k (PyDict.keys m) <-> get k m <> None.
Proof.
  induction m as [|[k' v'] m IH]; simpl.
  - split; [contradiction | congruence].
  - destruct (eqb k k') eqn:E.
    + apply eqb_eq in E. subst. split; [discriminate | now left].
    + rewrite <- IH. split; [intros [->|H]; [|exact H] | now right].
      rewrite eqb_refl_true in E. discriminate.
Qed.

(** An assignment keeps the keys when the key is there and appends the
    key when it is new. *)
Lemma keys_set (k : K) (v : V) (m : dict) :
  PyDict.keys (set k v m) =
  if contains k m then PyDict.keys m else PyDict.keys m ++ [k].
Proof.
  induction m as [|[k' v'] m IH]; simpl; [reflexivity|].
  destruct (eqb k k') eqn:E; simpl; [reflexivity|].
  fold (PyDict.keys (set k v m)). rewrite IH.
  now destruct (contains k m).
Qed.

Lemma NoDup_keys_set (k : K) (v : V) (m : dict) :
  NoDup (PyDict.keys m) -> NoDup (PyDict.keys (set k v m)).
Proof.
  intros Hnd. rewrite keys_set. destruct (contains k m) eqn:E; [exact Hnd|].
  apply NoDup_rev in Hnd. rewrite <- (rev_involutive (_ ++ [k])).
  apply NoDup_rev. rewrite rev_app_distr. simpl. constructor; [|exact Hnd].
  rewrite <- in_rev. rewrite In_keys_get. rewrite contains_get in E.
  destruct (get k m); [discriminate | congruence].
Qed.

(** The items after an assignment, seen from the items before. *)
Lemma In_set (k k' : K) (v v' : V) (m : dict) :
  In (k', v') (set k v m) ->
  v' = v \/ In (k', v') m.
Proof.
  induction m as [|[k0 v0] m IH]; simpl.
  - intros [[= <- <-] | []]. now left.
  - destruct (eqb k k0) eqn:E; simpl.
    + intros [[= <- <-] | H]; [now left | now right; right].
    + intros [H | H]; [now right; left|].
      destruct (IH H) as [-> | H']; [now left | now right; right].
Qed.

Lemma In_set_key (k k' : K) (v v' : V) (m : dict) :
  In (k', v') (set k v m) -> k' = k \/ In (k', v') m.
Proof.
  induction m as [|[k0 v0] m IH]; simpl.
  - intros [[= <- <-] | []]. now left.
  - destruct (eqb k k0) eqn:E; simpl.
    + apply eqb_eq in E. subst k0.
      intros [[= <- <-] | H]; [now left | now right; right].
    + intros [H | H]; [now right; left|].
      destruct (IH H) as [-> | H']; [now left | now right; right].
Qed.
End DictFacts.

(** ** The aggregator, one record at a time *)

Section AddRecord.
Import nhl_api view.

Lemma get_add_record_same (team : Z) (r : TeamGameRecord) (m : ScheduleIndex) :
  get team (add_record team r m) = Some (played_by team m ++ [r]).
Proof.
  unfold add_record, played_by, get, set.
  destruct (PyDict.get Z.eqb team m); now rewrite (get_set_same _ _ _ Z.eqb_eq).
Qed.

Lemma get_add_record_other (team other : Z) (r : TeamGameRecord) (m : ScheduleIndex) :
  team <> other -> get other (add_record team r m) = get other m.
Proof.
  intros Hne. unfold add_record, get, set.
  destruct (PyDict.get Z.eqb team m); now rewrite (get_set_other _ _ _ Z.eqb_eq).
Qed.

(** Appending a record for [team] extends the list of [team] by that
    record and leaves every other list as it was. *)
Lemma played_by_add_record (team other : Z) (r : TeamGameRecord) (m : ScheduleIndex) :
  played_by other (add_record team r m) =
  played_by other m ++ (if Z.eqb team other then [r] else []).
Proof.
  destruct (Z.eqb team other) eqn:E.
  - apply Z.eqb_eq in E. subst other.
    unfold played_by at 1. now rewrite get_add_record_same.
  - apply Z.eqb_neq in E. unfold played_by.
    rewrite (get_add_record_other _ _ r m E). now rewrite app_nil_r.
Qed.

Lemma NoDup_keys_add_record (team : Z) (r : TeamGameRecord) (m : ScheduleIndex) :
  NoDup (PyDict.keys m) -> NoDup (PyDict.keys (add_record team r m)).
Proof.
  intros Hnd. unfold add_record.
  destruct (get team m); now apply (NoDup_keys_set _ _ _ Z.eqb_eq).
Qed.

(** Where an item of the dictionary comes from after a record was
    appended: it was there before, or it is the list of [team], ending in
    the new record, the rest being what [team] had. *)
Lemma In_add_record (team k : Z) (r : TeamGameRecord) (played : list TeamGameRecord)
      (m : ScheduleIndex) :
  In (k, played) (add_record team r m) ->
  In (k, played) m \/
  (k = team /\ exists before, played = before ++ [r] /\
                              (before = [] \/ In (team, before) m)).
Proof.
  unfold add_record. destruct (get team m) as [old|] eqn:G; intros Hin.
  - destruct (In_set_key _ _ _ Z.eqb_eq _ _ _ _ _ Hin) as [-> | H]; [|now left].
    destruct (In_set _ _ _ _ _ _ _ _ Hin) as [-> | H]; [|now left].
    right. split; [reflexivity|]. exists old. split; [reflexivity|].
    right. now apply (get_In _ _ _ Z.eqb_eq).
  - destruct (In_set_key _ _ _ Z.eqb_eq _ _ _ _ _ Hin) as [-> | H]; [|now left].
    destruct (In_set _ _ _ _ _ _ _ _ Hin) as [-> | H]; [|now left].
    right. split; [reflexivity|]. exists []. split; [reflexivity | now left].
Qed.

Lemma total_records_set_new (team : Z) (played : list TeamGameRecord)
      (m : ScheduleIndex) :
  get team m = None ->
  total_records (set team played m) = total_records m + List.length played.
Proof.
  unfold total_records, PyDict.items, get, set.
  induction m as [|[k v] m IH]; simpl; [lia|].
  destruct (Z.eqb team k); [discriminate|].
  intros G. simpl. rewrite (IH G). lia.
Qed.

Lemma total_records_set_old (team : Z) (old played : list TeamGameRecord)
      (m : ScheduleIndex) :
  get team m = Some old ->
  total_records (set team played m) + List.length old =
  total_records m + List.length played.
Proof.
  unfold total_records, PyDict.items, get, set.
  induction m as [|[k v] m IH]; simpl; [discriminate|].
  destruct (Z.eqb team k).
  - intros [= ->]. simpl. lia.
  - intros G. simpl. specialize (IH G). lia.
Qed.

Lemma total_records_add_record (team : Z) (r : TeamGameRecord) (m : ScheduleIndex) :
  total_records (add_record team r m) = S (total_records m).
Proof.
  unfold add_record. destruct (get team m) as [old|] eqn:G.
  - pose proof (total_records_set_old team old (old ++ [r]) m G) as H.
    rewrite length_app in H. simpl in H. lia.
  - rewrite (total_records_set_new team [r] m G). simpl. lia.
Qed.
End AddRecord.

(** ** The aggregator, one game at a time *)

Section ProcessGame.
Import nhl_api view.

Lemma played_by_step (game_type : string) (team : Z) (m : ScheduleIndex)
      (dg : string * Game) :
  played_by team (step game_type m dg) =
  played_by team m ++ contribution game_type team dg.
Proof.
  destruct dg as [d game]. unfold step, process_game, contribution. simpl.
  destruct (passes game_type game); [|now rewrite app_nil_r].
  rewrite !played_by_add_record. now rewrite <- app_assoc.
Qed.

Lemma played_by_steps (game_type : string) (team : Z) (l : list (string * Game))
      (m : ScheduleIndex) :
  played_by team (fold_left (step game_type) l m) =
  played_by team m ++ flat_map (contribution game_type team) l.
Proof.
  revert m. induction l as [|dg l IH]; intros m; simpl.
  - now rewrite app_nil_r.
  - rewrite IH, played_by_step. now rewrite <- app_assoc.
Qed.

(** The two nested loops visit the games in the order of [all_games]. *)
Lemma inner_loop_steps (game_type : string) (d : string) (l : list Game)
      (m : ScheduleIndex) :
  fold_left (process_game game_type d) l m =
  fold_left (step game_type) (map (pair d) l) m.
Proof.
  revert m. induction l as [|g l IH]; intros m; simpl; [reflexivity|].
  now rewrite IH.
Qed.

Lemma loops_steps (game_type : string) (schedule : list DateGroup)
      (m : ScheduleIndex) :
  fold_left
    (fun games_per_team d =>
       fold_left (process_game game_type (date d)) (games d) games_per_team)
    schedule m =
  fold_left (step game_type) (all_games schedule) m.
Proof.
  revert m. induction schedule as [|d schedule IH]; intros m; simpl;
    [reflexivity|].
  unfold all_games in *. rewrite fold_left_app, IH.
  now rewrite inner_loop_steps.
Qed.

Lemma get_game_by_teams_steps (schedule : list DateGroup) (game_type : string) :
  get_game_by_teams schedule game_type =
  fold_left (step game_type) (all_games schedule) [].
Proof. apply loops_steps. Qed.

Lemma all_games_app (s1 s2 : list DateGroup) :
  all_games (s1 ++ s2) = all_games s1 ++ all_games s2.
Proof. unfold all_games. apply flat_map_app. Qed.

Lemma In_all_games (schedule : list DateGroup) (d : string) (game : Game) :
  In (d, game) (all_games schedule) <->
  exists group, In group schedule /\ date group = d /\ In game (games group).
Proof.
  unfold all_games. rewrite in_flat_map. split.
  - intros (group & Hg & Hin). apply in_map_iff in Hin.
    destruct Hin as (g & [= <- <-] & Hin). now exists group.
  - intros (group & Hg & <- & Hin). exists group. split; [exact Hg|].
    now apply in_map.
Qed.

(** An invariant of the loops is a property of the empty dictionary that
    every step keeps. *)
Lemma steps_invariant (P : ScheduleIndex -> Prop) (game_type : string)
      (l : list (string * Game)) :
  (forall m dg, In dg l -> P m -> P (step game_type m dg)) ->
  forall m, P m -> P (fold_left (step game_type) l m).
Proof.
  induction l as [|dg l IH]; intros Hstep m Hm; simpl; [exact Hm|].
  apply IH.
  - intros m' dg' Hin. apply Hstep. now right.
  - apply Hstep; [now left | exact Hm].
Qed.

Lemma NoDup_keys_get_game_by_teams (schedule : list DateGroup) (game_type : string) :
  NoDup (PyDict.keys (get_game_by_teams schedule game_type)).
Proof.
  rewrite get_game_by_teams_steps.
  apply steps_invariant with (P := fun m => NoDup (PyDict.keys m)).
  - intros m [d game] _ Hm. unfold step, process_game. simpl.
    destruct (passes game_type game); [|exact Hm].
    now apply NoDup_keys_add_record, NoDup_keys_add_record.
  - constructor.
Qed.
End ProcessGame.

(** ** Invariants of the aggregation *)

Section Invariants.
Import nhl_api view.

(** A property of records that holds of every record a matching game
    produces holds of every record of the result. *)
Lemma records_invariant (P : TeamGameRecord -> Prop) (game_type : string)
      (schedule : list DateGroup) :
  (forall d game side other,
      passes game_type game = true ->
      P {| rec_date := d; against := other; location := side;
           type := gameType game |}) ->
  forall team played r,
    In (team, played) (get_game_by_teams schedule game_type) ->
    In r played -> P r.
Proof.
  intros HP. rewrite get_game_by_teams_steps.
  apply steps_invariant
    with (P := fun m => forall team played r,
                   In (team, played) m -> In r played -> P r).
  - intros m [d game] _ Hm. unfold step, process_game. simpl.
    destruct (passes game_type game) eqn:Hpass; [|exact Hm].
    assert (Hadd : forall k rec m0,
               P rec ->
               (forall team played r, In (team, played) m0 -> In r played -> P r) ->
               forall team played r,
                 In (team, played) (add_record k rec m0) -> In r played -> P r).
    { intros k rec m0 Hrec Hm0 team played r Hin Hr.
      destruct (In_add_record _ _ _ _ _ Hin)
        as [Hold | (-> & before & -> & Hbefore)].
      - now apply (Hm0 team played).
      - apply in_app_or in Hr. destruct Hr as [Hr | [<- | []]]; [|exact Hrec].
        destruct Hbefore as [-> | Hb]; [contradiction|].
        now apply (Hm0 k before). }
    apply Hadd; [now apply HP|]. apply Hadd; [now apply HP | exact Hm].
  - intros team played r [].
Qed.

(** A key is created together with its first record. *)
Lemma lists_nonempty (schedule : list DateGroup) (game_type : string) :
  forall team played,
    In (team, played) (get_game_by_teams schedule game_type) -> played <> [].
Proof.
  rewrite get_game_by_teams_steps.
  apply steps_invariant
    with (P := fun m => forall team played, In (team, played) m -> played <> []).
  - intros m [d game] _ Hm. unfold step, process_game. simpl.
    destruct (passes game_type game); [|exact Hm].
    assert (Hadd : forall k rec m0,
               (forall team played, In (team, played) m0 -> played <> []) ->
               forall team played,
                 In (team, played) (add_record k rec m0) -> played <> []).
    { intros k rec m0 Hm0 team played Hin.
      destruct (In_add_record _ _ _ _ _ Hin)
        as [Hold | (-> & before & -> & _)].
      - now apply (Hm0 team).
      - now destruct before. }
    now apply Hadd, Hadd.
  - intros team played [].
Qed.

(** A key of the result is a side of a matching game. *)
Lemma keys_participate (schedule : list DateGroup) (game_type : string) :
  forall team played,
    In (team, played) (get_game_by_teams schedule game_type) ->
    exists d game,
      In (d, game) (all_games schedule) /\ passes game_type game = true /\
      (teams_home_team_id game = team \/ teams_away_team_id game = team).
Proof.
  rewrite get_game_by_teams_steps.
  generalize (all_games schedule) as l. intros l.
  assert (H : forall m,
             (forall team played, In (team, played) m ->
                exists d game, In (d, game) l /\ passes game_type game = true /\
                  (teams_home_team_id game = team \/ teams_away_team_id game = team)) ->
             forall l', incl l' l ->
             forall team played, In (team, played) (fold_left (step game_type) l' m) ->
                exists d game, In (d, game) l /\ passes game_type game = true /\
                  (teams_home_team_id game = team \/ teams_away_team_id game = team)).
  { intros m Hm l'. revert m Hm. induction l' as [|[d game] l' IH]; intros m Hm Hincl;
      simpl; [exact Hm|].
    apply IH; [|intros x Hx; apply Hincl; now right].
    unfold step, process_game. simpl.
    destruct (passes game_type game) eqn:Hpass; [|exact Hm].
    assert (Hdg : In (d, game) l) by (apply Hincl; now left).
    intros team played Hin.
    destruct (In_add_record _ _ _ _ _ Hin) as [Hold | (-> & _)].
    - destruct (In_add_record _ _ _ _ _ Hold) as [Hold' | (-> & _)].
      + now apply (Hm team played).
      + exists d, game. auto.
    - exists d, game. auto. }
  apply (H []); [intros team played [] | apply incl_refl].
Qed.

(** Each matching game adds two records. *)
Lemma total_records_steps (game_type : string) (l : list (string * Game))
      (m : ScheduleIndex) :
  total_records (fold_left (step game_type) l m) =
  total_records m
  + 2 * List.length (filter (fun dg => passes game_type (snd dg)) l).
Proof.
  revert m. induction l as [|[d game] l IH]; intros m; simpl; [lia|].
  rewrite IH. unfold step, process_game. simpl.
  destruct (passes game_type game); simpl; [|lia].
  rewrite !total_records_add_record. lia.
Qed.
End Invariants.

(** ** The aggregator: properties of the result *)

Section Aggregator.
Import nhl_api view sample.

Example boston_washington_R :
  get_game_by_teams boston_washington "R" =
  [ (6%Z, [ {| rec_date := "2022-10-12"; against := 15; location := "home";
               type := "R" |} ]);
    (15%Z, [ {| rec_date := "2022-10-12"; against := 6; location := "away";
                type := "R" |} ]) ].
Proof. reflexivity. Qed.

Example boston_washington_P : get_game_by_teams boston_washington "P" = [].
Proof. reflexivity. Qed.

Example home_and_home_all :
  get_game_by_teams home_and_home "all" =
  [ (6%Z, [ {| rec_date := "2022-10-12"; against := 15; location := "home";
               type := "R" |};
            {| rec_date := "2022-10-13"; against := 15; location := "away";
               type := "R" |} ]);
    (15%Z, [ {| rec_date := "2022-10-12"; against := 6; location := "away";
                type := "R" |};
             {| rec_date := "2022-10-13"; against := 6; location := "home";
                type := "R" |} ]);
    (8%Z, [ {| rec_date := "2022-10-12"; against := 99; location := "home";
               type := "PR" |} ]);
    (99%Z, [ {| rec_date := "2022-10-12"; against := 8; location := "away";
                type := "PR" |} ]) ].
Proof. reflexivity. Qed.

Lemma played_by_get_game_by_teams (schedule : list DateGroup)
      (game_type : string) (team : Z) :
  played_by team (get_game_by_teams schedule game_type) =
  flat_map (contribution game_type team) (all_games schedule).
Proof. rewrite get_game_by_teams_steps. apply played_by_steps. Qed.

(** C1.  The entry of every team in the result is determined game by
    game: going through the games in the order of the loops, a game that
    passes the filter, with home team H and away team A, puts exactly one
    record in the list of H (opponent A, location 'home', the type of the
    game) and exactly one in the list of A (opponent H, location 'away',
    the type of the game), and nothing in any other list; a game that
    does not pass the filter puts no record in any list.  A team with no
    record is not a key. *)
Theorem C1_one_record_per_side :
  forall (schedule : list DateGroup) (game_type : string) (team : Z),
    get team (get_game_by_teams schedule game_type) =
    match
      flat_map
        (fun dg : string * Game =>
           if passes game_type (snd dg) then
             (if Z.eqb (teams_home_team_id (snd dg)) team
              then [ {| rec_date := fst dg;
                        against := teams_away_team_id (snd dg);
                        location := "home";
                        type := gameType (snd dg) |} ]
              else [])
             ++
             (if Z.eqb (teams_away_team_id (snd dg)) team
              then [ {| rec_date := fst dg;
                        against := teams_home_team_id (snd dg);
                        location := "away";
                        type := gameType (snd dg) |} ]
              else [])
           else [])
        (all_games schedule)
    with
    | [] => None
    | r :: rest => Some (r :: rest)
    end.
Proof.
  intros schedule game_type team.
  pose proof (played_by_get_game_by_teams schedule game_type team) as Hplayed.
  rewrite (flat_map_ext (contribution game_type team)
             (fun dg : string * Game =>
                if passes game_type (snd dg) then
                  (if Z.eqb (teams_home_team_id (snd dg)) team
                   then [ {| rec_date := fst dg;
                             against := teams_away_team_id (snd dg);
                             location := "home";
                             type := gameType (snd dg) |} ]
                   else [])
                  ++
                  (if Z.eqb (teams_away_team_id (snd dg)) team
                   then [ {| rec_date := fst dg;
                             against := teams_home_team_id (snd dg);
                             location := "away";
                             type := gameType (snd dg) |} ]
                   else [])
                else [])) in Hplayed by (intros [d game]; reflexivity).
  rewrite <- Hplayed. unfold played_by.
  destruct (get team (get_game_by_teams schedule game_type)) as [played|] eqn:G;
    [|reflexivity].
  apply (get_In _ _ _ Z.eqb_eq) in G. apply lists_nonempty in G.
  destruct played; [contradiction | reflexivity].
Qed.

(** C2.  Each team is a key of the result once, and the lengths of the
    lists of all the keys add up to twice the number of games of the
    schedule that match the filter. *)
Theorem C2_total_is_twice_matching :
  forall (schedule : list DateGroup) (game_type : string),
    NoDup (PyDict.keys (get_game_by_teams schedule game_type)) /\
    total_records (get_game_by_teams schedule game_type) =
    2 * matching_games schedule game_type.
Proof.
  intros schedule game_type. split; [apply NoDup_keys_get_game_by_teams|].
  rewrite get_game_by_teams_steps.
  rewrite total_records_steps. reflexivity.
Qed.

Lemma passes_not_all (game_type : string) (game : Game) :
  game_type <> "all"%string -> passes game_type game = true ->
  gameType game = game_type.
Proof.
  intros Hne. unfold passes. rewrite orb_true_iff, !String.eqb_eq.
  intros [H | H]; [contradiction | now symmetry].
Qed.

(** C3.  With a filter other than 'all', every record of every list of
    the result has the filter value as its type. *)
Theorem C3_type_is_filter :
  forall (schedule : list DateGroup) (game_type : string),
    game_type <> "all"%string ->
    forall (team : Z) (played : list TeamGameRecord) (r : TeamGameRecord),
      In (team, played) (PyDict.items (get_game_by_teams schedule game_type)) ->
      In r played ->
      type r = game_type.
Proof.
  intros schedule game_type Hne.
  apply records_invariant. intros d game side other Hpass. simpl.
  now apply passes_not_all.
Qed.

Lemma C3_type_is_filter_witness :
  "R"%string <> "all"%string /\
  In (6%Z, [ {| rec_date := "2022-10-12"; against := 15; location := "home";
                type := "R" |} ])
     (PyDict.items (get_game_by_teams boston_washington "R")) /\
  type {| rec_date := "2022-10-12"; against := 15; location := "home";
          type := "R" |} = "R"%string.
Proof.
  assert (Hne : "R"%string <> "all"%string) by discriminate.
  assert (Hin : In (6%Z, [ {| rec_date := "2022-10-12"; against := 15;
                             location := "home"; type := "R" |} ])
                   (PyDict.items (get_game_by_teams boston_washington "R")))
    by (simpl; left; reflexivity).
  split; [exact Hne|]. split; [exact Hin|].
  apply (C3_type_is_filter boston_washington "R" Hne 6%Z _ _ Hin).
  simpl. left. reflexivity.
Defined.
Lemma length_contribution (game_type : string) (team : Z)
      (l : list (string * Game)) :
  List.length (flat_map (contribution game_type team) l) =
  List.length (filter (fun dg => passes game_type (snd dg)
                                 && Z.eqb (teams_home_team_id (snd dg)) team) l)
  + List.length (filter (fun dg => passes game_type (snd dg)
                                   && Z.eqb (teams_away_team_id (snd dg)) team) l).
Proof.
  induction l as [|[d game] l IH]; simpl; [reflexivity|].
  rewrite length_app, IH.
  destruct (passes game_type game); simpl; [|lia].
  destruct (Z.eqb (teams_home_team_id game) team),
           (Z.eqb (teams_away_team_id game) team); simpl; lia.
Qed.

(** C6.  The list of a team follows the order of the input.  For a
    schedule cut anywhere, at a date group and inside it at a game, the
    list of the team is: its records from the date groups before the cut,
    then those from the games of the cut group before the cut, then those
    from the games of the cut group after it, then those from the date
    groups after it.  Nothing is merged or dropped: the list has one record
    for each matching game the team plays at home and one for each it
    plays away. *)
Theorem C6_input_order_no_dedup :
  forall (game_type : string) (team : Z),
    (forall (before : list DateGroup) (d : string) (earlier later : list Game)
            (after : list DateGroup),
        played_by team
          (get_game_by_teams
             (before ++ {| date := d; games := earlier ++ later |} :: after)
             game_type) =
        played_by team (get_game_by_teams before game_type)
        ++ played_by team
             (get_game_by_teams [ {| date := d; games := earlier |} ] game_type)
        ++ played_by team
             (get_game_by_teams [ {| date := d; games := later |} ] game_type)
        ++ played_by team (get_game_by_teams after game_type))
    /\
    (forall schedule : list DateGroup,
        List.length (played_by team (get_game_by_teams schedule game_type)) =
        home_games schedule game_type team + away_games schedule game_type team).
Proof.
  intros game_type team. split.
  - intros before d earlier later after.
    rewrite !played_by_get_game_by_teams.
    rewrite all_games_app. unfold all_games at 2 3 4. simpl.
    rewrite !app_nil_r, map_app, !flat_map_app.
    now rewrite <- !app_assoc.
  - intros schedule. rewrite played_by_get_game_by_teams.
    apply length_contribution.
Qed.

(** A team that plays twice in the window has both records, in the order
    of the dates. *)
Example boston_plays_twice :
  played_by 6 (get_game_by_teams home_and_home "R") =
  [ {| rec_date := "2022-10-12"; against := 15; location := "home"; type := "R" |};
    {| rec_date := "2022-10-13"; against := 15; location := "away"; type := "R" |} ].
Proof. reflexivity. Qed.

(** C8.  Every key of the result is the home or the away team of a game
    of a date group of the input (a game that matches the filter). *)
Theorem C8_keys_are_participants :
  forall (schedule : list DateGroup) (game_type : string) (team : Z),
    In team (PyDict.keys (get_game_by_teams schedule game_type)) ->
    exists (group : DateGroup) (game : Game),
      In group schedule /\ In game (games group) /\
      passes game_type game = true /\
      (teams_home_team_id game = team \/ teams_away_team_id game = team).
Proof.
  intros schedule game_type team Hkey.
  unfold PyDict.keys in Hkey. apply in_map_iff in Hkey.
  destruct Hkey as ([k played] & Hk & Hin). simpl in Hk. subst k.
  destruct (keys_participate _ _ _ _ Hin) as (d & game & Hdg & Hpass & Hside).
  apply In_all_games in Hdg. destruct Hdg as (group & Hgroup & _ & Hgame).
  exists group, game. auto.
Qed.

Lemma C8_keys_are_participants_witness :
  In 15%Z (PyDict.keys (get_game_by_teams boston_washington "R")) /\
  exists (group : DateGroup) (game : Game),
    In group boston_washington /\ In game (games group) /\
    passes "R" game = true /\
    (teams_home_team_id game = 15%Z \/ teams_away_team_id game = 15%Z).
Proof.
  assert (Hkey : In 15%Z (PyDict.keys (get_game_by_teams boston_washington "R")))
    by (simpl; right; left; reflexivity).
  split; [exact Hkey|].
  exact (C8_keys_are_participants boston_washington "R" 15%Z Hkey).
Defined.
End Aggregator.

(** ** The sort of the rows *)

Section SortFacts.
Import app.
Variable A : Type.
Variable key : A -> nat.

Lemma insert_desc_perm (x : A) (l : list A) :
  Permutation (x :: l) (insert_desc key x l).
Proof.
  induction l as [|y l IH]; simpl; [apply Permutation_refl|].
  destruct (key y <=? key x); [apply Permutation_refl|].
  eapply perm_trans; [apply perm_swap|]. now apply perm_skip.
Qed.

Lemma sort_reverse_perm (l : list A) : Permutation l (sort_reverse key l).
Proof.
  induction l as [|x l IH]; simpl; [constructor|].
  eapply perm_trans; [apply perm_skip, IH | apply insert_desc_perm].
Qed.

Lemma insert_desc_sorted (x : A) (l : list A) :
  StronglySorted (desc key) l -> StronglySorted (desc key) (insert_desc key x l).
Proof.
  induction 1 as [|y l Hs IH Hall]; simpl.
  - constructor; constructor.
  - destruct (key y <=? key x) eqn:E.
    + apply Nat.leb_le in E. constructor; [now constructor|].
      constructor; [exact E|].
      eapply Forall_impl; [|exact Hall]. unfold desc. intros z Hz. lia.
    + apply Nat.leb_gt in E. constructor; [exact IH|].
      apply (Permutation_Forall (insert_desc_perm x l)).
      constructor; [unfold desc; lia | exact Hall].
Qed.

Lemma sort_reverse_sorted (l : list A) : StronglySorted (desc key) (sort_reverse key l).
Proof.
  induction l as [|x l IH]; simpl; [constructor | now apply insert_desc_sorted].
Qed.

(** Inserting [x] puts it before the elements with its key and moves no
    other element: the elements with a given key stay in their order. *)
Lemma insert_desc_stable (c : nat) (x : A) (l : list A) :
  filter (fun a => key a =? c) (insert_desc key x l) =
  filter (fun a => key a =? c) (x :: l).
Proof.
  induction l as [|y l IH]; simpl; [reflexivity|].
  destruct (key y <=? key x) eqn:E; simpl; [reflexivity|].
  apply Nat.leb_gt in E. rewrite IH. simpl.
  destruct (key x =? c) eqn:Ex, (key y =? c) eqn:Ey; try reflexivity.
  apply Nat.eqb_eq in Ex, Ey. lia.
Qed.

Lemma sort_reverse_stable (c : nat) (l : list A) :
  filter (fun a => key a =? c) (sort_reverse key l) =
  filter (fun a => key a =? c) l.
Proof.
  induction l as [|x l IH]; simpl; [reflexivity|].
  rewrite insert_desc_stable. simpl. now rewrite IH.
Qed.

(** The two properties determine the sorted list: a list in descending
    order in which the elements of every key are in the order they have in
    [l] is [sort_reverse key l], whatever algorithm produced it. *)
Lemma sorted_stable_unique (l l' : list A) :
  StronglySorted (desc key) l ->
  StronglySorted (desc key) l' ->
  (forall c, filter (fun a => key a =? c) l = filter (fun a => key a =? c) l') ->
  l = l'.
Proof.
  intros Hl. revert l'. induction Hl as [|x xs Hxs IH Hx]; intros l' Hl' Hsame.
  - destruct l' as [|y ys]; [reflexivity|].
    specialize (Hsame (key y)). simpl in Hsame.
    rewrite Nat.eqb_refl in Hsame. discriminate.
  - destruct l' as [|y ys].
    + specialize (Hsame (key x)). simpl in Hsame.
      rewrite Nat.eqb_refl in Hsame. discriminate.
    + apply StronglySorted_inv in Hl'. destruct Hl' as [Hys Hy].
      rewrite Forall_forall in Hx, Hy.
      assert (Hkey : key x = key y).
      { destruct (Nat.eq_dec (key x) (key y)) as [E | E]; [exact E|].
        pose proof (Hsame (key x)) as H1. pose proof (Hsame (key y)) as H2.
        simpl in H1, H2. rewrite Nat.eqb_refl in H1, H2.
        destruct (key y =? key x) eqn:E1;
          [apply Nat.eqb_eq in E1; congruence|].
        destruct (key x =? key y) eqn:E2;
          [apply Nat.eqb_eq in E2; congruence|].
        assert (Hxin : In x ys).
        { apply (proj1 (filter_In (fun a => key a =? key x) x ys)).
          rewrite <- H1. now left. }
        assert (Hyin : In y xs).
        { apply (proj1 (filter_In (fun a => key a =? key y) y xs)).
          rewrite H2. now left. }
        apply Hy in Hxin. apply Hx in Hyin. unfold desc in *. lia. }
      assert (Hhead : x = y).
      { specialize (Hsame (key x)). simpl in Hsame.
        rewrite <- Hkey, Nat.eqb_refl in Hsame. now injection Hsame. }
      subst y. f_equal. apply IH; [exact Hys|].
      intros c. specialize (Hsame c). simpl in Hsame.
      destruct (key x =? c); [now injection Hsame | exact Hsame].
Qed.

Lemma sort_reverse_unique (l out : list A) :
  StronglySorted (desc key) out ->
  (forall c, filter (fun a => key a =? c) out = filter (fun a => key a =? c) l) ->
  out = sort_reverse key l.
Proof.
  intros Hsorted Hstable. apply sorted_stable_unique.
  - exact Hsorted.
  - apply sort_reverse_sorted.
  - intros c. now rewrite sort_reverse_stable.
Qed.

(** In a sorted list an element at a smaller index may come before the
    element at a larger one. *)
Lemma sorted_nth_error (l : list A) :
  StronglySorted (desc key) l ->
  forall i j a b,
    i < j -> nth_error l i = Some a -> nth_error l j = Some b -> desc key a b.
Proof.
  induction 1 as [|y l Hs IH Hall]; intros i j a b Hij Ha Hb.
  - now destruct i.
  - destruct j as [|j]; [lia|]. simpl in Hb.
    destruct i as [|i]; simpl in Ha.
    + injection Ha as ->. rewrite Forall_forall in Hall.
      apply Hall. now apply nth_error_In with j.
    + apply (IH i j); [lia | exact Ha | exact Hb].
Qed.

(** The first element of a sorted list has the greatest key and the last
    one the least. *)
Lemma sorted_first_last (l : list A) (first last : A) :
  StronglySorted (desc key) l ->
  nth_error l 0 = Some first ->
  nth_error l (List.length l - 1) = Some last ->
  forall a, In a l -> key last <= key a <= key first.
Proof.
  intros Hs Hfirst Hlast a Hin.
  destruct (In_nth_error _ _ Hin) as [n Hn].
  assert (Hlt : n < List.length l)
    by (apply nth_error_Some; congruence).
  split.
  - destruct (Nat.eq_dec n (List.length l - 1)) as [-> | Hne].
    + rewrite Hlast in Hn. injection Hn as ->. lia.
    + apply (sorted_nth_error l Hs n (List.length l - 1) a last);
        [lia | exact Hn | exact Hlast].
  - destruct n as [|n].
    + rewrite Hfirst in Hn. injection Hn as ->. lia.
    + apply (sorted_nth_error l Hs 0 (S n) first a); [lia | exact Hfirst | exact Hn].
Qed.
End SortFacts.

(** ** The rows of the table *)

Section Rows.
Import nhl_api app view.

Lemma in_list_get (teams : PyDict.dict string string) (s : string) :
  in_list s (PyDict.keys teams) = true ->
  exists abbr, PyDict.get String.eqb s teams = Some abbr.
Proof.
  unfold in_list. induction teams as [|[k v] teams IH]; simpl; [discriminate|].
  destruct (String.eqb s k); simpl; [now exists v | exact IH].
Qed.

(** The guard of the comprehension makes the subscript safe: the rows are
    built without a [KeyError], one for each item whose key is in the
    directory, in the order of the items. *)
Lemma build_data_rows (teams : PyDict.dict string string)
      (items : list (Z * list TeamGameRecord)) :
  exists data,
    build_data teams (PyDict.keys teams) items = Ok data /\
    Forall2
      (fun kv row =>
         PyDict.get String.eqb (str (fst kv)) teams = Some (team row) /\
         game_count row = List.length (snd kv))
      (filter (fun kv => in_list (str (fst kv)) (PyDict.keys teams)) items)
      data.
Proof.
  induction items as [|[team_id played] items (data & Hdata & Hrows)]; simpl.
  - exists []. split; [reflexivity | constructor].
  - destruct (in_list (str team_id) (PyDict.keys teams)) eqn:E.
    + destruct (in_list_get teams _ E) as [abbr Habbr].
      unfold subscript. rewrite Habbr. simpl. rewrite Hdata. simpl.
      eexists. split; [reflexivity|]. constructor; [|exact Hrows].
      simpl. split; [exact Habbr | reflexivity].
    + exists data. split; [exact Hdata | exact Hrows].
Qed.

(** A non-empty [data] gives a table: its rows are [data] sorted and the
    two highlighted counts are those of its first and of its last row. *)
Lemma make_table_nonempty (data : list Row) :
  data <> [] ->
  exists first last,
    nth_error (sort_reverse game_count data) 0 = Some first /\
    nth_error (sort_reverse game_count data)
              (List.length (sort_reverse game_count data) - 1) = Some last /\
    make_table data =
    Ok (DataTable (sort_reverse game_count data) (game_count first) (game_count last)).
Proof.
  intros Hne. destruct data as [|r data]; [contradiction|].
  unfold make_table.
  set (sorted := sort_reverse game_count (r :: data)).
  assert (Hlen : List.length sorted = S (List.length data)).
  { unfold sorted. rewrite <- (Permutation_length (sort_reverse_perm _ game_count (r :: data))).
    reflexivity. }
  destruct (nth_error sorted 0) as [first|] eqn:Hfirst;
    [|apply nth_error_None in Hfirst; lia].
  destruct (nth_error sorted (List.length sorted - 1)) as [last|] eqn:Hlast;
    [|apply nth_error_None in Hlast; lia].
  exists first, last. unfold item. rewrite Hfirst. simpl. rewrite Hlast. simpl.
  auto.
Qed.

(** The table, when there is one, shows [data] sorted. *)
Lemma make_table_rows (data rows : list Row) (highest_count lowest_count : nat) :
  make_table data = Ok (DataTable rows highest_count lowest_count) ->
  rows = sort_reverse game_count data /\
  exists first last,
    nth_error rows 0 = Some first /\
    nth_error rows (List.length rows - 1) = Some last /\
    highest_count = game_count first /\ lowest_count = game_count last.
Proof.
  intros Htable. destruct data as [|r0 data]; [discriminate|].
  destruct (make_table_nonempty (r0 :: data)) as (first & last & Hf & Hl & Heq);
    [discriminate|].
  rewrite Heq in Htable. injection Htable as <- <- <-.
  split; [reflexivity|]. exists first, last. auto.
Qed.

(** A team that plays a matching game is a key of the result. *)
Lemma participant_is_key (schedule : list DateGroup) (game_type : string)
      (group : DateGroup) (game : Game) (team : Z) :
  In group schedule -> In game (games group) ->
  passes game_type game = true ->
  teams_home_team_id game = team \/ teams_away_team_id game = team ->
  In team (PyDict.keys (get_game_by_teams schedule game_type)).
Proof.
  intros Hgroup Hgame Hpass Hside.
  apply (In_keys_get _ _ _ Z.eqb_eq).
  pose proof (played_by_get_game_by_teams schedule game_type team) as Hplayed.
  unfold played_by in Hplayed. fold (get team (get_game_by_teams schedule game_type)).
  destruct (get team (get_game_by_teams schedule game_type)); [discriminate|].
  exfalso.
  assert (Hin : In (date group, game) (all_games schedule))
    by (apply In_all_games; now exists group).
  assert (Hsome : exists r, In r (contribution game_type team (date group, game))).
  { unfold contribution. rewrite Hpass. destruct Hside as [<- | <-].
    - rewrite Z.eqb_refl. eexists. apply in_or_app. left. now left.
    - rewrite Z.eqb_refl. eexists. apply in_or_app. right. now left. }
  destruct Hsome as [r Hr].
  assert (Hflat : In r (flat_map (contribution game_type team) (all_games schedule)))
    by (apply in_flat_map; eauto).
  rewrite <- Hplayed in Hflat. exact Hflat.
Qed.

(** No game matches: the result is the empty dictionary. *)
Lemma no_match_empty (schedule : list DateGroup) (game_type : string) :
  (forall group game,
      In group schedule -> In game (games group) -> passes game_type game = false) ->
  get_game_by_teams schedule game_type = [].
Proof.
  intros Hnone. rewrite get_game_by_teams_steps.
  apply steps_invariant with (P := fun m => m = []); [|reflexivity].
  intros m [d game] Hin ->. unfold step, process_game. simpl.
  apply In_all_games in Hin. destruct Hin as (group & Hgroup & _ & Hgame).
  now rewrite (Hnone group game Hgroup Hgame).
Qed.
End Rows.

(** ** Loops that may raise *)

Section ForEach.
Variables A S : Type.
Variable body : S -> A -> result S.

(** A loop whose body never raises on its elements never raises. *)
Lemma for_each_ok (xs : list A) :
  (forall x, In x xs -> forall acc, exists acc', body acc x = Ok acc') ->
  forall acc, exists acc', for_each body xs acc = Ok acc'.
Proof.
  induction xs as [|x xs IH]; intros Hbody acc; simpl.
  - now exists acc.
  - destruct (Hbody x (or_introl eq_refl) acc) as [acc' ->]. simpl.
    apply IH. intros y Hy. apply Hbody. now right.
Qed.

(** An element on which the body always raises makes the loop raise: at
    that element, or before it. *)
Lemma for_each_raise (xs : list A) (x : A) :
  In x xs ->
  (forall acc, exists e, body acc x = Raise e) ->
  forall acc, exists e, for_each body xs acc = Raise e.
Proof.
  intros Hin Hx. induction xs as [|y xs IH]; intros acc; simpl; [contradiction|].
  destruct Hin as [-> | Hin].
  - destruct (Hx acc) as [e ->]. now exists e.
  - destruct (body acc y) as [acc'|e]; simpl; [now apply IH | now exists e].
Qed.
End ForEach.

(** ** The aggregator over untyped JSON *)

Section Raw.
Import raw.

Lemma present_true (c : result JSON) :
  present c = true -> exists v, c = Ok v.
Proof. destruct c as [v|e]; [now exists v | discriminate]. Qed.

Lemma present_false (c : result JSON) :
  present c = false -> exists e, c = Raise e.
Proof. destruct c as [v|e]; [discriminate | now exists e]. Qed.

(** With the date of the group and the type of the game there, and a key
    that can be hashed, appending a record raises nothing. *)
Lemma add_record_ok (date game team other : JSON) (side : string)
      (m : ScheduleIndex) :
  present (subscript date "date") = true ->
  present (subscript game "gameType") = true ->
  hashable team = true ->
  exists m', add_record date game team other side m = Ok m'.
Proof.
  intros Hd Ht Hh.
  destruct (present_true _ Hd) as [d Ed]. destruct (present_true _ Ht) as [t Et].
  unfold add_record, contains, get, set, record. rewrite Hh, Ed, Et. simpl.
  rewrite contains_get.
  destruct (PyDict.get key_eqb team m); simpl; eauto.
Qed.

Lemma process_game_ok (game_type : string) (date game : JSON) (m : ScheduleIndex) :
  present (subscript date "date") = true ->
  well_formed_game game = true ->
  hashable_ids_game game = true ->
  exists m', process_game game_type date m game = Ok m'.
Proof.
  intros Hd Hwf Hh. unfold well_formed_game in Hwf. unfold hashable_ids_game in Hh.
  apply andb_true_iff in Hwf. destruct Hwf as [Hwf Haway].
  apply andb_true_iff in Hwf. destruct Hwf as [Htype Hhome].
  apply andb_true_iff in Hh. destruct Hh as [Hhh Hha].
  destruct (present_true _ Hhome) as [home Ehome].
  destruct (present_true _ Haway) as [away Eaway].
  rewrite Ehome in Hhh. rewrite Eaway in Hha. simpl in Hhh, Hha.
  unfold process_game, passes.
  assert (Hsel : exists b : bool,
             (if String.eqb game_type "all" then Ok true
              else bind (subscript game "gameType")
                        (fun t => Ok (str_eq game_type t))) = Ok b).
  { destruct (String.eqb game_type "all"); [now exists true|].
    destruct (present_true _ Htype) as [t ->]. simpl. eauto. }
  destruct Hsel as [b ->]. simpl. destruct b; [|eauto].
  rewrite Ehome, Eaway. simpl.
  destruct (add_record_ok date game home away "home" m Hd Htype Hhh) as [m1 ->].
  simpl. now apply add_record_ok.
Qed.

Lemma process_date_ok (game_type : string) (date : JSON) (m : ScheduleIndex) :
  well_formed_date date = true ->
  hashable_ids_date date = true ->
  exists m', process_date game_type m date = Ok m'.
Proof.
  unfold well_formed_date, hashable_ids_date, process_date.
  intros Hwf Hh. apply andb_true_iff in Hwf. destruct Hwf as [Hd Hgames].
  destruct (subscript date "games") as [[| | | |games|]|]; try discriminate.
  simpl. rewrite forallb_forall in Hgames, Hh.
  apply for_each_ok. intros game Hin acc.
  apply process_game_ok; auto.
Qed.

Lemma get_game_by_teams_ok (schedule : JSON) (game_type : string) :
  well_formed schedule = true ->
  hashable_ids schedule = true ->
  exists m, get_game_by_teams schedule game_type = Ok m.
Proof.
  unfold well_formed, hashable_ids, get_game_by_teams.
  destruct schedule as [| | | |dates|]; try discriminate.
  intros Hwf Hh. simpl. rewrite forallb_forall in Hwf, Hh.
  apply for_each_ok. intros date Hin acc.
  apply process_date_ok; auto.
Qed.

(** The record cannot be built without the type of the game or the date
    of the group. *)
Lemma record_raise (date game other : JSON) (side : string) :
  present (subscript date "date") && present (subscript game "gameType") = false ->
  exists e, record date game other side = Raise e.
Proof.
  unfold record. intros H.
  destruct (subscript date "date") as [d|e]; simpl in *; [|now exists e].
  destruct (subscript game "gameType") as [t|e]; simpl in *;
    [discriminate | now exists e].
Qed.

Lemma add_record_raise (date game team other : JSON) (side : string)
      (m : ScheduleIndex) :
  present (subscript date "date") && present (subscript game "gameType") = false ->
  exists e, add_record date game team other side m = Raise e.
Proof.
  intros H. destruct (record_raise date game other side H) as [e He].
  unfold add_record. rewrite He.
  destruct (contains team m) as [[|]|e1]; simpl; eauto.
  destruct (get team m) as [played|e2]; simpl; eauto.
Qed.

(** A game whose type is missing stops the loop, whatever the filter. *)
Lemma process_game_raise_type (game_type : string) (date game : JSON)
      (m : ScheduleIndex) :
  present (subscript game "gameType") = false ->
  exists e, process_game game_type date m game = Raise e.
Proof.
  intros Ht. unfold process_game, passes.
  destruct (String.eqb game_type "all").
  - simpl. destruct (team_id game "home") as [home|e]; simpl; eauto.
    destruct (team_id game "away") as [away|e]; simpl; eauto.
    destruct (add_record_raise date game home away "home" m) as [e ->];
      [rewrite Ht; apply andb_false_r | simpl; eauto].
  - destruct (present_false _ Ht) as [e ->]. simpl. eauto.
Qed.

(** A game that passes the filter needs its two team ids and the date of
    its group. *)
Lemma process_game_raise_selected (game_type : string) (date game : JSON)
      (m : ScheduleIndex) :
  passes game_type game = Ok true ->
  present (subscript date "date") && present (team_id game "home")
  && present (team_id game "away") = false ->
  exists e, process_game game_type date m game = Raise e.
Proof.
  intros Hsel H. unfold process_game. rewrite Hsel. simpl.
  destruct (team_id game "home") as [home|e]; simpl; eauto.
  destruct (team_id game "away") as [away|e]; simpl; eauto.
  rewrite !andb_true_r in H.
  destruct (add_record_raise date game home away "home" m) as [e ->];
    [rewrite H; reflexivity | simpl; eauto].
Qed.

Lemma process_date_raise (game_type : string) (date : JSON) (games : list JSON)
      (game : JSON) (m : ScheduleIndex) :
  subscript date "games" = Ok (JArr games) ->
  In game games ->
  (forall acc, exists e, process_game game_type date acc game = Raise e) ->
  exists e, process_date game_type m date = Raise e.
Proof.
  intros Hgames Hin Hraise. unfold process_date. rewrite Hgames. simpl.
  now apply for_each_raise with game.
Qed.
End Raw.

(** ** The typed aggregator is the untyped one on a typed schedule *)

Section Refinement.
Import raw.

Lemma contains_encode (k : Z) (m : nhl_api.ScheduleIndex) :
  PyDict.contains key_eqb (JNum k) (encode_index m) = nhl_api.contains k m.
Proof.
  induction m as [|[k' v] m IH]; simpl; [reflexivity|].
  destruct (Z.eqb k k'); [reflexivity | exact IH].
Qed.

Lemma get_encode (k : Z) (m : nhl_api.ScheduleIndex) :
  PyDict.get key_eqb (JNum k) (encode_index m) =
  option_map (map encode_record) (nhl_api.get k m).
Proof.
  induction m as [|[k' v] m IH]; simpl; [reflexivity|].
  destruct (Z.eqb k k'); [reflexivity | exact IH].
Qed.

Lemma set_encode (k : Z) (v : list nhl_api.TeamGameRecord)
      (m : nhl_api.ScheduleIndex) :
  PyDict.set key_eqb (JNum k) (map encode_record v) (encode_index m) =
  encode_index (nhl_api.set k v m).
Proof.
  induction m as [|[k' v'] m IH]; simpl; [reflexivity|].
  destruct (Z.eqb k k'); simpl; [reflexivity | now rewrite IH].
Qed.

Lemma add_record_encode (group : nhl_api.DateGroup) (game : nhl_api.Game)
      (team other : Z) (side : string) (m : nhl_api.ScheduleIndex) :
  add_record (encode_date group) (encode_game game) (JNum team) (JNum other) side
             (encode_index m) =
  Ok (encode_index
        (nhl_api.add_record team
           {| nhl_api.rec_date := nhl_api.date group; nhl_api.against := other;
              nhl_api.location := side;
              nhl_api.type := nhl_api.gameType game |} m)).
Proof.
  unfold add_record, contains, get, set, record, nhl_api.add_record. simpl.
  rewrite contains_encode, get_encode.
  unfold nhl_api.contains. rewrite contains_get. fold (nhl_api.get team m).
  destruct (nhl_api.get team m) as [played|]; simpl.
  - rewrite <- set_encode, map_app. reflexivity.
  - rewrite <- set_encode. reflexivity.
Qed.

Lemma process_game_encode (game_type : string) (group : nhl_api.DateGroup)
      (game : nhl_api.Game) (m : nhl_api.ScheduleIndex) :
  process_game game_type (encode_date group) (encode_index m) (encode_game game) =
  Ok (encode_index (nhl_api.process_game game_type (nhl_api.date group) m game)).
Proof.
  unfold process_game, nhl_api.process_game, passes, nhl_api.passes.
  assert (Hsel : (if String.eqb game_type "all" then Ok true
                  else bind (subscript (encode_game game) "gameType")
                            (fun t => Ok (str_eq game_type t))) =
                 Ok (String.eqb game_type "all"
                     || String.eqb game_type (nhl_api.gameType game))).
  { destruct (String.eqb game_type "all"); reflexivity. }
  rewrite Hsel. simpl bind at 1. cbv beta.
  destruct (String.eqb game_type "all"
            || String.eqb game_type (nhl_api.gameType game)); [|reflexivity].
  change (team_id (encode_game game) "home")
    with (Ok (JNum (nhl_api.teams_home_team_id game)) : result JSON).
  change (team_id (encode_game game) "away")
    with (Ok (JNum (nhl_api.teams_away_team_id game)) : result JSON).
  simpl bind at 1. simpl bind at 1. rewrite add_record_encode. simpl bind at 1.
  apply add_record_encode.
Qed.

Lemma for_each_encode (A B S T : Type) (body : T -> B -> result T)
      (step : S -> A -> S) (enc_state : S -> T) (enc : A -> B) (xs : list A) :
  (forall acc x, body (enc_state acc) (enc x) = Ok (enc_state (step acc x))) ->
  forall acc,
    for_each body (map enc xs) (enc_state acc) = Ok (enc_state (fold_left step xs acc)).
Proof.
  intros Hbody. induction xs as [|x xs IH]; intros acc; simpl; [reflexivity|].
  rewrite Hbody. simpl. apply IH.
Qed.

Lemma process_date_encode (game_type : string) (group : nhl_api.DateGroup)
      (m : nhl_api.ScheduleIndex) :
  process_date game_type (encode_index m) (encode_date group) =
  Ok (encode_index
        (fold_left (nhl_api.process_game game_type (nhl_api.date group))
                   (nhl_api.games group) m)).
Proof.
  unfold process_date.
  change (subscript (encode_date group) "games")
    with (Ok (JArr (map encode_game (nhl_api.games group))) : result JSON).
  cbn [bind iterate].
  apply for_each_encode with
    (step := nhl_api.process_game game_type (nhl_api.date group)).
  intros acc game. apply process_game_encode.
Qed.

(** On the JSON of a typed schedule the untyped function raises nothing
    and returns the dictionary of the typed function. *)
Lemma get_game_by_teams_encode (schedule : list nhl_api.DateGroup)
      (game_type : string) :
  get_game_by_teams (encode_schedule schedule) game_type =
  Ok (encode_index (nhl_api.get_game_by_teams schedule game_type)).
Proof.
  unfold get_game_by_teams, nhl_api.get_game_by_teams, encode_schedule.
  cbn [bind iterate].
  change (for_each (process_date game_type) (map encode_date schedule) [])
    with (for_each (process_date game_type) (map encode_date schedule)
                   (encode_index [])).
  apply for_each_encode with
    (enc_state := encode_index)
    (step := fun m d =>
               fold_left (nhl_api.process_game game_type (nhl_api.date d))
                         (nhl_api.games d) m).
  intros acc group. apply process_date_encode.
Qed.
End Refinement.

(** ** The untyped aggregator: exceptions *)

Section RawExceptions.
Import raw sample.

(** C9, as stated, fails: with every field in place the function still
    raises when a team id cannot be hashed.  Here the id of the home team
    is a list, and [home in games_per_team] raises [TypeError]. *)
Lemma C9_unhashable_id_raises :
  well_formed list_as_team_id = true /\
  get_game_by_teams list_as_team_id "R" = Raise TypeError.
Proof. split; reflexivity. Qed.

(** A field that the loop does not read may be missing: the filter 'P'
    skips this game before its teams and the date of its group are
    read. *)
Example unread_fields_may_be_missing :
  well_formed game_without_teams = false /\
  get_game_by_teams game_without_teams "P" = Ok [].
Proof. split; reflexivity. Qed.

(** C9, amended.  On a well-formed input (a list of date groups, each
    with a 'date' and a list 'games', each game with 'gameType' and the two
    team ids) whose team ids can be hashed, the function raises nothing:
    it returns a dictionary.  A missing field that the loop reads is
    fatal, the exception ends the function: a date group without 'games';
    a game without 'gameType'; and, for a game that passes the filter, a
    missing team id or a missing 'date' of its group. *)
Theorem C9_well_formed_no_exception :
  forall (schedule : JSON) (game_type : string),
    (well_formed schedule = true -> hashable_ids schedule = true ->
     exists games_per_team, get_game_by_teams schedule game_type = Ok games_per_team)
    /\
    (forall dates date,
        schedule = JArr dates -> In date dates ->
        present (subscript date "games") = false ->
        exists e, get_game_by_teams schedule game_type = Raise e)
    /\
    (forall dates date games game,
        schedule = JArr dates -> In date dates ->
        subscript date "games" = Ok (JArr games) -> In game games ->
        present (subscript game "gameType") = false ->
        exists e, get_game_by_teams schedule game_type = Raise e)
    /\
    (forall dates date games game,
        schedule = JArr dates -> In date dates ->
        subscript date "games" = Ok (JArr games) -> In game games ->
        passes game_type game = Ok true ->
        present (subscript date "date") && present (team_id game "home")
        && present (team_id game "away") = false ->
        exists e, get_game_by_teams schedule game_type = Raise e).
Proof.
  intros schedule game_type. repeat split.
  - apply get_game_by_teams_ok.
  - intros dates date -> Hin Hmissing. unfold get_game_by_teams. simpl.
    apply for_each_raise with date; [exact Hin|].
    intros acc. unfold process_date.
    destruct (present_false _ Hmissing) as [e ->]. now exists e.
  - intros dates date games game -> Hin Hgames Hgame Hmissing.
    unfold get_game_by_teams. simpl.
    apply for_each_raise with date; [exact Hin|].
    intros acc. apply process_date_raise with games game; auto.
    intros acc'. now apply process_game_raise_type.
  - intros dates date games game -> Hin Hgames Hgame Hsel Hmissing.
    unfold get_game_by_teams. simpl.
    apply for_each_raise with date; [exact Hin|].
    intros acc. apply process_date_raise with games game; auto.
    intros acc'. now apply process_game_raise_selected.
Qed.

Lemma C9_well_formed_no_exception_witness :
  (well_formed (encode_schedule boston_washington) = true /\
   hashable_ids (encode_schedule boston_washington) = true /\
   exists games_per_team,
     get_game_by_teams (encode_schedule boston_washington) "R" = Ok games_per_team)
  /\
  (exists e, get_game_by_teams (JArr [JObj []]) "R" = Raise e)
  /\
  (exists e, get_game_by_teams (JArr [JObj [("games", JArr [JObj []])]%string]) "R"
             = Raise e)
  /\
  (exists e, get_game_by_teams game_without_teams "R" = Raise e).
Proof.
  split; [|split; [|split]].
  - split; [reflexivity|]. split; [reflexivity|].
    apply (proj1 (C9_well_formed_no_exception
                    (encode_schedule boston_washington) "R"));
      reflexivity.
  - apply (proj1 (proj2 (C9_well_formed_no_exception (JArr [JObj []]) "R"))
             [JObj []] (JObj []));
      [reflexivity | left; reflexivity | reflexivity].
  - apply (proj1 (proj2 (proj2 (C9_well_formed_no_exception
                                  (JArr [JObj [("games", JArr [JObj []])]%string])
                                  "R")))
             [JObj [("games", JArr [JObj []])]%string]
             (JObj [("games", JArr [JObj []])]%string)
             [JObj []] (JObj []));
      [reflexivity | left; reflexivity | reflexivity | left; reflexivity
       | reflexivity].
  - apply (proj2 (proj2 (proj2 (C9_well_formed_no_exception game_without_teams "R")))
             [JObj [("games", JArr [JObj [("gameType", JStr "R")]])]%string]
             (JObj [("games", JArr [JObj [("gameType", JStr "R")]])]%string)
             [JObj [("gameType", JStr "R")]%string]
             (JObj [("gameType", JStr "R")]%string));
      [reflexivity | left; reflexivity | reflexivity | left; reflexivity
       | reflexivity | reflexivity].
Defined.
End RawExceptions.

(** ** The presentation layer: rows, sort and table *)

Section Presentation.
Import nhl_api app view sample.

Lemma make_data_rows (games_per_team : ScheduleIndex) :
  exists data,
    make_data games_per_team = Ok data /\
    Forall2
      (fun kv row =>
         PyDict.get String.eqb (str (fst kv)) TEAM_ABBR = Some (team row) /\
         game_count row = List.length (snd kv))
      (filter (fun kv => in_directory (fst kv)) (PyDict.items games_per_team))
      data.
Proof. apply build_data_rows. Qed.

(** C4.  An empty list of date groups gives the empty dictionary, and so
    does a schedule none of whose games matches the filter.  In both cases
    the callback returns the placeholder string and not a table, and
    nothing is raised, neither by the callback nor by the aggregation over
    the JSON of the schedule. *)
Theorem C4_empty_results :
  forall game_type : string,
    (get_game_by_teams [] game_type = [] /\
     raw.get_game_by_teams (JArr []) game_type = Ok [] /\
     update_table [] game_type = Ok (Placeholder "No data retrieved..."))
    /\
    (forall schedule : list DateGroup,
        (forall group game,
            In group schedule -> In game (games group) ->
            passes game_type game = false) ->
        get_game_by_teams schedule game_type = [] /\
        raw.get_game_by_teams (raw.encode_schedule schedule) game_type = Ok [] /\
        update_table schedule game_type = Ok (Placeholder "No data retrieved...")).
Proof.
  intros game_type. split.
  - repeat split.
  - intros schedule Hnone.
    pose proof (no_match_empty schedule game_type Hnone) as Hempty.
    split; [exact Hempty|]. split.
    + rewrite get_game_by_teams_encode, Hempty. reflexivity.
    + unfold update_table. rewrite Hempty. reflexivity.
Qed.

Lemma C4_empty_results_witness :
  (forall group game,
      In group boston_washington -> In game (games group) ->
      passes "P" game = false) /\
  get_game_by_teams boston_washington "P" = [] /\
  raw.get_game_by_teams (raw.encode_schedule boston_washington) "P" = Ok [] /\
  update_table boston_washington "P" = Ok (Placeholder "No data retrieved...").
Proof.
  assert (Hnone : forall group game,
             In group boston_washington -> In game (games group) ->
             passes "P" game = false).
  { intros group game [<- | []] [<- | []]. reflexivity. }
  split; [exact Hnone|].
  exact (proj2 (C4_empty_results "P") boston_washington Hnone).
Defined.

(** C5.  The sort of the rows returns the same rows (a permutation) with
    their game counts in non-increasing order along the whole list, and it
    is stable: for every count, the rows with that count are in the order
    they had before.  So the first row of the sorted list has the greatest
    count and the last row the least; these are the [highest_count] and
    [lowest_count] of the table the callback builds, whose rows are the
    sorted list. *)
Theorem C5_sort_descending_stable :
  forall data : list Row,
    let sorted := sort_reverse game_count data in
    Permutation data sorted /\
    StronglySorted (fun a b => game_count b <= game_count a) sorted /\
    (forall c : nat,
        filter (fun r => Nat.eqb (game_count r) c) sorted =
        filter (fun r => Nat.eqb (game_count r) c) data) /\
    (forall first last : Row,
        nth_error sorted 0 = Some first ->
        nth_error sorted (List.length sorted - 1) = Some last ->
        forall r, In r sorted ->
                  game_count last <= game_count r <= game_count first) /\
    (forall rows highest_count lowest_count,
        make_table data = Ok (DataTable rows highest_count lowest_count) ->
        rows = sorted /\
        Forall (fun r => lowest_count <= game_count r <= highest_count) rows /\
        exists first last,
          nth_error rows 0 = Some first /\
          nth_error rows (List.length rows - 1) = Some last /\
          highest_count = game_count first /\ lowest_count = game_count last).
Proof.
  intros data sorted.
  pose proof (sort_reverse_sorted Row game_count data) as Hsorted.
  fold sorted in Hsorted.
  split; [apply sort_reverse_perm|].
  split; [exact Hsorted|].
  split; [intros c; apply sort_reverse_stable|].
  split; [intros first last; now apply sorted_first_last|].
  intros rows highest_count lowest_count Htable.
  destruct (make_table_rows _ _ _ _ Htable)
    as (-> & first & last & Hf & Hl & -> & ->).
  split; [reflexivity|]. split.
  - apply Forall_forall. intros r Hr.
    now apply (sorted_first_last Row game_count sorted first last).
  - exists first, last. auto.
Qed.

Example three_rows_sorted :
  make_table three_rows =
  Ok (DataTable [ {| team := "WSH"; game_count := 2 |};
                  {| team := "BOS"; game_count := 1 |};
                  {| team := "MTL"; game_count := 1 |} ] 2 1).
Proof. reflexivity. Qed.

Lemma C5_sort_descending_stable_witness :
  let sorted := sort_reverse game_count three_rows in
  nth_error sorted 0 = Some {| team := "WSH"; game_count := 2 |} /\
  nth_error sorted (List.length sorted - 1) = Some {| team := "MTL"; game_count := 1 |} /\
  In {| team := "BOS"; game_count := 1 |} sorted /\
  1 <= 1 <= 2 /\
  make_table three_rows = Ok (DataTable sorted 2 1) /\
  Forall (fun r => 1 <= game_count r <= 2) sorted.
Proof.
  intros sorted.
  assert (Hfirst : nth_error sorted 0 = Some {| team := "WSH"; game_count := 2 |})
    by reflexivity.
  assert (Hlast : nth_error sorted (List.length sorted - 1)
                  = Some {| team := "MTL"; game_count := 1 |}) by reflexivity.
  assert (Hin : In {| team := "BOS"; game_count := 1 |} sorted)
    by (right; left; reflexivity).
  assert (Htable : make_table three_rows = Ok (DataTable sorted 2 1))
    by reflexivity.
  split; [exact Hfirst|]. split; [exact Hlast|]. split; [exact Hin|].
  split.
  - exact (proj1 (proj2 (proj2 (proj2 (C5_sort_descending_stable three_rows))))
             _ _ Hfirst Hlast _ Hin).
  - split; [exact Htable|].
    exact (proj1 (proj2 (proj2 (proj2 (proj2 (proj2
             (C5_sort_descending_stable three_rows))))
             sorted 2 1 Htable))).
Defined.

(** C7.  A team that plays a matching game is a key of the result,
    whether or not the directory knows it; 99 is not in the directory.
    The rows are built without an exception, one for each key of the
    result that is in the directory and none for the others, in the order
    of the keys: the abbreviation of a row is the entry of its key in
    [TEAM_ABBR] and its count the length of the list of its key.  A table,
    when there is one, shows these rows. *)
Theorem C7_directory_filter :
  forall (schedule : list DateGroup) (game_type : string),
    (forall group game team,
        In group schedule -> In game (games group) ->
        passes game_type game = true ->
        teams_home_team_id game = team \/ teams_away_team_id game = team ->
        In team (PyDict.keys (get_game_by_teams schedule game_type)))
    /\
    in_directory 99 = false
    /\
    exists data : list Row,
      make_data (get_game_by_teams schedule game_type) = Ok data /\
      Forall2
        (fun kv row =>
           In (app.str (fst kv)) (PyDict.keys TEAM_ABBR) /\
           PyDict.get String.eqb (app.str (fst kv)) TEAM_ABBR = Some (team row) /\
           game_count row = List.length (snd kv))
        (filter (fun kv => in_directory (fst kv))
                (PyDict.items (get_game_by_teams schedule game_type)))
        data /\
      (forall rows highest_count lowest_count,
          update_table schedule game_type =
          Ok (DataTable rows highest_count lowest_count) ->
          Permutation data rows).
Proof.
  intros schedule game_type. split; [|split; [reflexivity|]].
  - intros group game team. apply participant_is_key.
  - destruct (make_data_rows (get_game_by_teams schedule game_type))
      as (data & Hdata & Hrows).
    exists data. split; [exact Hdata|]. split.
    + clear Hdata. induction Hrows as [|kv row kvs rows [Hget Hcount] _ IH];
        constructor; [|exact IH].
      split; [|now split].
      apply (In_keys_get _ _ _ String.eqb_eq). now rewrite Hget.
    + intros rows highest_count lowest_count Htable.
      unfold update_table in Htable. rewrite Hdata in Htable. simpl in Htable.
      destruct (make_table_rows _ _ _ _ Htable) as [-> _].
      apply sort_reverse_perm.
Qed.
(** The specification's scenario for a team outside the directory: 99
    plays in Montreal, is a key of the result and has no row. *)
Example team_99_not_displayed :
  PyDict.keys (get_game_by_teams home_and_home "all") = [6; 15; 8; 99]%Z /\
  update_table home_and_home "all" =
  Ok (DataTable [ {| team := "BOS"; game_count := 2 |};
                  {| team := "WSH"; game_count := 2 |};
                  {| team := "MTL"; game_count := 1 |} ] 2 1).
Proof. split; reflexivity. Qed.

Lemma C7_directory_filter_witness :
  In 99%Z (PyDict.keys (get_game_by_teams home_and_home "all")) /\
  in_directory 99 = false /\
  exists data : list Row,
    make_data (get_game_by_teams home_and_home "all") = Ok data /\
    Permutation data [ {| team := "BOS"; game_count := 2 |};
                       {| team := "WSH"; game_count := 2 |};
                       {| team := "MTL"; game_count := 1 |} ].
Proof.
  destruct (C7_directory_filter home_and_home "all")
    as (Hkey & Hdir & data & Hdata & _ & Hrows).
  split.
  - apply (Hkey {| date := "2022-10-12";
                   games := [ {| gameType := "R"; teams_home_team_id := 6;
                                 teams_away_team_id := 15 |};
                              {| gameType := "PR"; teams_home_team_id := 8;
                                 teams_away_team_id := 99 |} ] |}
                {| gameType := "PR"; teams_home_team_id := 8;
                   teams_away_team_id := 99 |}).
    + left. reflexivity.
    + right. left. reflexivity.
    + reflexivity.
    + right. reflexivity.
  - split; [exact Hdir|]. exists data. split; [exact Hdata|].
    apply (Hrows _ 2 1). reflexivity.
Defined.

(** C10.  Every key of the result has a non-empty list, so every row
    that is built, and every row of the table, has a game count of at
    least 1, and so has the lowest count of the table. *)
Theorem C10_counts_at_least_one :
  forall (schedule : list DateGroup) (game_type : string),
    Forall (fun kv => snd kv <> [])
           (PyDict.items (get_game_by_teams schedule game_type))
    /\
    exists data : list Row,
      make_data (get_game_by_teams schedule game_type) = Ok data /\
      Forall (fun row => 1 <= game_count row) data /\
      (forall rows highest_count lowest_count,
          update_table schedule game_type =
          Ok (DataTable rows highest_count lowest_count) ->
          Forall (fun row => 1 <= game_count row) rows /\ 1 <= lowest_count).
Proof.
  intros schedule game_type.
  assert (Hne : Forall (fun kv => snd kv <> [])
                       (PyDict.items (get_game_by_teams schedule game_type))).
  { apply Forall_forall. intros [team played] Hin. simpl.
    now apply (lists_nonempty schedule game_type team). }
  split; [exact Hne|].
  destruct (make_data_rows (get_game_by_teams schedule game_type))
    as (data & Hdata & Hrows).
  assert (Hcounts : Forall (fun row => 1 <= game_count row) data).
  { assert (Hsub : Forall (fun kv : Z * list TeamGameRecord => snd kv <> [])
                          (filter (fun kv => in_directory (fst kv))
                                  (PyDict.items (get_game_by_teams schedule game_type)))).
    { apply Forall_forall. intros kv Hkv. apply filter_In in Hkv.
      rewrite Forall_forall in Hne. now apply Hne. }
    clear Hdata Hne.
    induction Hrows as [|kv row kvs rows [_ Hcount] _ IH]; constructor.
    - inversion Hsub as [|? ? Hkv _]; subst. rewrite Hcount.
      destruct (snd kv); [contradiction | simpl; lia].
    - apply IH. now inversion Hsub. }
  exists data. split; [exact Hdata|]. split; [exact Hcounts|].
  intros rows highest_count lowest_count Htable.
  unfold update_table in Htable. rewrite Hdata in Htable. simpl in Htable.
  destruct (make_table_rows _ _ _ _ Htable)
    as (-> & first & last & _ & Hlast & _ & ->).
  assert (Hsorted : Forall (fun row => 1 <= game_count row)
                           (sort_reverse game_count data))
    by (apply (Permutation_Forall (sort_reverse_perm Row game_count data));
        exact Hcounts).
  split; [exact Hsorted|].
  rewrite Forall_forall in Hsorted. apply Hsorted.
  now apply nth_error_In with (List.length (sort_reverse game_count data) - 1).
Qed.

Lemma C10_counts_at_least_one_witness :
  update_table home_and_home "all" =
  Ok (DataTable [ {| team := "BOS"; game_count := 2 |};
                  {| team := "WSH"; game_count := 2 |};
                  {| team := "MTL"; game_count := 1 |} ] 2 1) /\
  Forall (fun row => 1 <= game_count row)
         [ {| team := "BOS"; game_count := 2 |};
           {| team := "WSH"; game_count := 2 |};
           {| team := "MTL"; game_count := 1 |} ] /\
  1 <= 1.
Proof.
  assert (Htable : update_table home_and_home "all" =
                   Ok (DataTable [ {| team := "BOS"; game_count := 2 |};
                                   {| team := "WSH"; game_count := 2 |};
                                   {| team := "MTL"; game_count := 1 |} ] 2 1))
    by reflexivity.
  split; [exact Htable|].
  destruct (C10_counts_at_least_one home_and_home "all")
    as (_ & data & _ & _ & Hrows).
  exact (Hrows _ 2 1 Htable).
Defined.
End Presentation.

(** ** The order of the keys *)

Section KeyOrder.
Import nhl_api view typed.

Lemma contains_existsb (team : Z) (m : ScheduleIndex) :
  contains team m = existsb (Z.eqb team) (PyDict.keys m).
Proof.
  induction m as [|[k v] m IH]; simpl; [reflexivity|].
  destruct (Z.eqb team k); [reflexivity | exact IH].
Qed.

Lemma keys_add_record (team : Z) (r : TeamGameRecord) (m : ScheduleIndex) :
  PyDict.keys (add_record team r m) =
  if existsb (Z.eqb team) (PyDict.keys m) then PyDict.keys m
  else PyDict.keys m ++ [team].
Proof.
  rewrite <- contains_existsb. unfold add_record, contains, set.
  destruct (get team m); apply keys_set.
Qed.

Lemma keys_steps (game_type : string) (l : list (string * Game)) (m : ScheduleIndex) :
  PyDict.keys (fold_left (step game_type) l m) =
  fold_left (fun seen team =>
               if existsb (Z.eqb team) seen then seen else seen ++ [team])
            (flat_map (fun dg : string * Game =>
                         if passes game_type (snd dg)
                         then [teams_home_team_id (snd dg);
                               teams_away_team_id (snd dg)]
                         else []) l)
            (PyDict.keys m).
Proof.
  revert m. induction l as [|[d game] l IH]; intros m; simpl; [reflexivity|].
  rewrite fold_left_app, IH. f_equal.
  unfold step, process_game. simpl.
  destruct (passes game_type game); simpl; [|reflexivity].
  now rewrite !keys_add_record.
Qed.

(** X1.  The keys of the result are the teams of the matching games, each
    once, in the order in which the loops first meet them (the home team
    of a game before its away team). *)
Theorem keys_in_order_of_first_game :
  forall (schedule : list DateGroup) (game_type : string),
    PyDict.keys (get_game_by_teams schedule game_type) =
    first_seen (participants schedule game_type).
Proof.
  intros schedule game_type. rewrite get_game_by_teams_steps.
  apply (keys_steps game_type (all_games schedule) []).
Qed.

Example keys_home_and_home :
  PyDict.keys (get_game_by_teams sample.home_and_home "all") = [6; 15; 8; 99]%Z /\
  participants sample.home_and_home "all" = [6; 15; 8; 99; 15; 6]%Z.
Proof. split; reflexivity. Qed.
End KeyOrder.

(** ** The filter and the selector *)

Section Filter.
Import nhl_api view typed.

Lemma passes_all (game : Game) : passes "all" game = true.
Proof. reflexivity. Qed.

Lemma passes_specific (game_type : string) (game : Game) :
  game_type <> "all"%string ->
  passes game_type game = String.eqb (gameType game) game_type.
Proof.
  intros Hne. unfold passes.
  apply String.eqb_neq in Hne. rewrite Hne. simpl. apply String.eqb_sym.
Qed.

Lemma filter_flat_map (A B : Type) (p : B -> bool) (g : A -> list B) (l : list A) :
  filter p (flat_map g l) = flat_map (fun x => filter p (g x)) l.
Proof.
  induction l as [|x l IH]; simpl; [reflexivity|].
  now rewrite filter_app, IH.
Qed.

Lemma contribution_specific (game_type : string) (team : Z) (dg : string * Game) :
  game_type <> "all"%string ->
  contribution game_type team dg =
  filter (fun r => String.eqb (type r) game_type) (contribution "all" team dg).
Proof.
  intros Hne. destruct dg as [d game]. unfold contribution.
  rewrite passes_all, (passes_specific game_type game Hne), filter_app.
  destruct (String.eqb (gameType game) game_type) eqn:E;
    destruct (Z.eqb (teams_home_team_id game) team),
             (Z.eqb (teams_away_team_id game) team);
    simpl; rewrite ?E; reflexivity.
Qed.

Lemma played_by_specific (schedule : list DateGroup) (game_type : string)
      (team : Z) :
  game_type <> "all"%string ->
  played_by team (get_game_by_teams schedule game_type) =
  filter (fun r => String.eqb (type r) game_type)
         (played_by team (get_game_by_teams schedule "all")).
Proof.
  intros Hne.
  rewrite !played_by_get_game_by_teams, filter_flat_map.
  apply flat_map_ext. intros dg. now apply contribution_specific.
Qed.

(** X2.  Selecting one type of game and aggregating is aggregating
    everything and then keeping, in the list of each team, the records of
    that type. *)
Theorem specific_filter_is_selection :
  forall (schedule : list DateGroup) (game_type : string) (team : Z),
    game_type <> "all"%string ->
    played_by team (get_game_by_teams schedule game_type) =
    filter (fun r => String.eqb (type r) game_type)
           (played_by team (get_game_by_teams schedule "all")).
Proof.
  intros schedule game_type team Hne. now apply played_by_specific.
Qed.

Lemma specific_filter_is_selection_witness :
  "R"%string <> "all"%string /\
  played_by 6 (get_game_by_teams sample2.three_types "R") =
  filter (fun r => String.eqb (type r) "R")
         (played_by 6 (get_game_by_teams sample2.three_types "all")).
Proof.
  assert (Hne : "R"%string <> "all"%string) by discriminate.
  split; [exact Hne|].
  exact (specific_filter_is_selection sample2.three_types "R" 6 Hne).
Defined.

Lemma list_sum_add (A : Type) (f g : A -> nat) (l : list A) :
  list_sum (map (fun x => f x + g x) l) = list_sum (map f l) + list_sum (map g l).
Proof. induction l as [|x l IH]; simpl; lia. Qed.

(** Over a list without repetition that contains [x], exactly one element
    is [x]. *)
Lemma list_sum_indicator (tys : list string) (x : string) :
  NoDup tys -> In x tys ->
  list_sum (map (fun ty => if String.eqb x ty then 1 else 0) tys) = 1.
Proof.
  induction 1 as [|ty tys Hnotin Hnd IH]; intros Hin; [contradiction|].
  simpl. destruct (String.eqb x ty) eqn:E.
  - apply String.eqb_eq in E. subst ty.
    assert (Hzero : forall l, ~ In x l ->
              list_sum (map (fun ty => if String.eqb x ty then 1 else 0) l) = 0).
    { induction l as [|y l IHl]; intros Hn; simpl; [reflexivity|].
      destruct (String.eqb x y) eqn:Ey.
      - apply String.eqb_eq in Ey. subst y. exfalso. apply Hn. now left.
      - apply IHl. intros H. apply Hn. now right. }
    rewrite (Hzero tys Hnotin). reflexivity.
  - destruct Hin as [-> | Hin]; [rewrite String.eqb_refl in E; discriminate|].
    now rewrite (IH Hin).
Qed.

(** A list whose records have their types in [tys] splits into its
    records of each type. *)
Lemma length_by_type (tys : list string) (l : list TeamGameRecord) :
  NoDup tys ->
  Forall (fun r => In (type r) tys) l ->
  List.length l =
  list_sum (map (fun ty => List.length (filter (fun r => String.eqb (type r) ty) l))
                tys).
Proof.
  intros Hnd. induction 1 as [|r l Hr Hl IH]; simpl.
  - induction tys as [|ty tys IHt]; simpl; [reflexivity|].
    apply IHt. now inversion Hnd.
  - transitivity
      (list_sum
         (map (fun ty =>
                 (if String.eqb (type r) ty then 1 else 0)
                 + List.length (filter (fun r0 => String.eqb (type r0) ty) l))
              tys)).
    + rewrite list_sum_add, (list_sum_indicator tys (type r) Hnd Hr), <- IH.
      reflexivity.
    + f_equal. apply map_ext. intros ty.
      destruct (String.eqb (type r) ty); reflexivity.
Qed.

Lemma specific_types_eq : dropdown.specific_types = ["PR"; "R"; "P"]%string.
Proof. reflexivity. Qed.

(** X3.  When every game of the schedule has one of the three types the
    selector offers, the list of a team under 'all' is as long as its
    lists under 'PR', 'R' and 'P' together; in general it is at least as
    long. *)
Theorem all_is_sum_of_specific_types :
  forall (schedule : list DateGroup) (team : Z),
    (List.length (played_by team (get_game_by_teams schedule "PR"))
     + List.length (played_by team (get_game_by_teams schedule "R"))
     + List.length (played_by team (get_game_by_teams schedule "P"))
     <= List.length (played_by team (get_game_by_teams schedule "all")))
    /\
    ((forall group game,
         In group schedule -> In game (games group) ->
         In (gameType game) dropdown.specific_types) ->
     List.length (played_by team (get_game_by_teams schedule "all")) =
     List.length (played_by team (get_game_by_teams schedule "PR"))
     + List.length (played_by team (get_game_by_teams schedule "R"))
     + List.length (played_by team (get_game_by_teams schedule "P"))).
Proof.
  intros schedule team.
  assert (Hpr : "PR"%string <> "all"%string) by discriminate.
  assert (Hr : "R"%string <> "all"%string) by discriminate.
  assert (Hp : "P"%string <> "all"%string) by discriminate.
  rewrite (played_by_specific schedule "PR" team Hpr).
  rewrite (played_by_specific schedule "R" team Hr).
  rewrite (played_by_specific schedule "P" team Hp).
  set (l := played_by team (get_game_by_teams schedule "all")).
  split.
  - clearbody l. induction l as [|r l IH]; simpl; [lia|].
    destruct (String.eqb_spec (type r) "PR") as [E1|E1],
             (String.eqb_spec (type r) "R") as [E2|E2],
             (String.eqb_spec (type r) "P") as [E3|E3];
      simpl; try lia; congruence.
  - intros Htypes.
    assert (Hall : Forall (fun r => In (type r) dropdown.specific_types) l).
    { unfold l. rewrite played_by_get_game_by_teams.
      apply Forall_forall. intros r Hin. apply in_flat_map in Hin.
      destruct Hin as ([d game] & Hdg & Hrec).
      apply In_all_games in Hdg. destruct Hdg as (group & Hg & _ & Hgame).
      pose proof (Htypes group game Hg Hgame) as Hty.
      unfold contribution in Hrec. rewrite passes_all in Hrec.
      apply in_app_or in Hrec.
      destruct (Z.eqb (teams_home_team_id game) team),
               (Z.eqb (teams_away_team_id game) team);
        simpl in Hrec; destruct Hrec as [Hrec | Hrec];
        try contradiction; destruct Hrec as [<- | []]; exact Hty. }
    assert (Hnd : NoDup dropdown.specific_types)
      by (rewrite specific_types_eq; repeat constructor; simpl; intuition discriminate).
    rewrite (length_by_type dropdown.specific_types l Hnd Hall).
    rewrite specific_types_eq. simpl. lia.
Qed.
Lemma all_is_sum_of_specific_types_witness :
  (forall group game,
      In group sample2.three_types -> In game (games group) ->
      In (gameType game) dropdown.specific_types) /\
  List.length (played_by 6 (get_game_by_teams sample2.three_types "all")) =
  List.length (played_by 6 (get_game_by_teams sample2.three_types "PR"))
  + List.length (played_by 6 (get_game_by_teams sample2.three_types "R"))
  + List.length (played_by 6 (get_game_by_teams sample2.three_types "P")).
Proof.
  assert (Htypes : forall group game,
             In group sample2.three_types -> In game (games group) ->
             In (gameType game) dropdown.specific_types).
  { intros group game [<- | [<- | [<- | []]]] [<- | []]; simpl; auto. }
  split; [exact Htypes|].
  exact (proj2 (all_is_sum_of_specific_types sample2.three_types 6) Htypes).
Defined.
End Filter.

(** ** The two sides of a game, and the order of the input *)

Section Sides.
Import nhl_api view typed.

Lemma In_contribution (game_type : string) (team : Z) (d : string) (game : Game)
      (r : TeamGameRecord) :
  In r (contribution game_type team (d, game)) ->
  passes game_type game = true /\
  ((teams_home_team_id game = team /\
    r = {| rec_date := d; against := teams_away_team_id game;
           location := "home"; type := gameType game |}) \/
   (teams_away_team_id game = team /\
    r = {| rec_date := d; against := teams_home_team_id game;
           location := "away"; type := gameType game |})).
Proof.
  unfold contribution. destruct (passes game_type game); [|contradiction].
  intros Hin. split; [reflexivity|]. apply in_app_or in Hin.
  destruct Hin as [Hin | Hin].
  - destruct (Z.eqb_spec (teams_home_team_id game) team) as [E|E]; [|contradiction].
    destruct Hin as [<- | []]. now left.
  - destruct (Z.eqb_spec (teams_away_team_id game) team) as [E|E]; [|contradiction].
    destruct Hin as [<- | []]. now right.
Qed.

Lemma played_by_item (schedule : list DateGroup) (game_type : string)
      (team : Z) (played : list TeamGameRecord) :
  In (team, played) (PyDict.items (get_game_by_teams schedule game_type)) ->
  played = played_by team (get_game_by_teams schedule game_type).
Proof.
  intros Hin. unfold played_by, get.
  rewrite (In_get _ _ _ Z.eqb_eq team played _
             (NoDup_keys_get_game_by_teams schedule game_type) Hin).
  reflexivity.
Qed.

(** X4.  Every record has its counterpart: a record of [team] against an
    opponent is a 'home' or an 'away' record, and the list of the opponent
    has the record of the same date and type against [team] with the other
    location. *)
Theorem every_record_has_its_mirror :
  forall (schedule : list DateGroup) (game_type : string)
         (team : Z) (played : list TeamGameRecord) (r : TeamGameRecord),
    In (team, played) (PyDict.items (get_game_by_teams schedule game_type)) ->
    In r played ->
    (location r = "home"%string \/ location r = "away"%string) /\
    In (mirror team r)
       (played_by (against r) (get_game_by_teams schedule game_type)).
Proof.
  intros schedule game_type team played r Hitem Hr.
  rewrite (played_by_item schedule game_type team played Hitem) in Hr.
  rewrite played_by_get_game_by_teams in Hr. apply in_flat_map in Hr.
  destruct Hr as ([d game] & Hdg & Hr).
  destruct (In_contribution _ _ _ _ _ Hr) as [Hpass [[Hteam ->] | [Hteam ->]]];
    simpl; (split; [auto|]);
    rewrite played_by_get_game_by_teams; apply in_flat_map;
    exists (d, game); (split; [exact Hdg|]);
    unfold contribution, mirror; rewrite Hpass; simpl; rewrite Hteam;
    apply in_or_app.
  - right. rewrite Z.eqb_refl. now left.
  - left. rewrite Z.eqb_refl. now left.
Qed.

Lemma every_record_has_its_mirror_witness :
  In (6%Z, [ {| rec_date := "2022-10-12"; against := 15; location := "home";
                type := "R" |} ])
     (PyDict.items (get_game_by_teams sample.boston_washington "R")) /\
  In {| rec_date := "2022-10-12"; against := 6; location := "away"; type := "R" |}
     (played_by 15 (get_game_by_teams sample.boston_washington "R")).
Proof.
  assert (Hitem : In (6%Z, [ {| rec_date := "2022-10-12"; against := 15;
                                location := "home"; type := "R" |} ])
                     (PyDict.items (get_game_by_teams sample.boston_washington "R")))
    by (left; reflexivity).
  split; [exact Hitem|].
  exact (proj2 (every_record_has_its_mirror sample.boston_washington "R" 6 _
                  {| rec_date := "2022-10-12"; against := 15; location := "home";
                     type := "R" |}
                  Hitem (or_introl eq_refl))).
Defined.

(** X5.  The list of a team depends on the games and their dates, not on how
    the response lists them: two schedules with the same dated games, in
    any order and any grouping, give every team the same records up to
    order, hence the same count. *)
Theorem counts_do_not_depend_on_order :
  forall (schedule schedule' : list DateGroup) (game_type : string) (team : Z),
    Permutation (all_games schedule) (all_games schedule') ->
    Permutation (played_by team (get_game_by_teams schedule game_type))
                (played_by team (get_game_by_teams schedule' game_type)) /\
    List.length (played_by team (get_game_by_teams schedule game_type)) =
    List.length (played_by team (get_game_by_teams schedule' game_type)).
Proof.
  intros schedule schedule' game_type team Hperm.
  assert (H : Permutation (played_by team (get_game_by_teams schedule game_type))
                          (played_by team (get_game_by_teams schedule' game_type))).
  { rewrite !played_by_get_game_by_teams. now apply Permutation_flat_map. }
  split; [exact H | now apply Permutation_length].
Qed.

Lemma counts_do_not_depend_on_order_witness :
  Permutation (all_games sample.home_and_home) (all_games (rev sample.home_and_home)) /\
  List.length (played_by 6 (get_game_by_teams sample.home_and_home "R")) =
  List.length (played_by 6 (get_game_by_teams (rev sample.home_and_home) "R")).
Proof.
  assert (Hperm : Permutation (all_games sample.home_and_home)
                              (all_games (rev sample.home_and_home))).
  { simpl. apply Permutation_sym.
    apply (Permutation_app_comm
             [("2022-10-13"%string,
               {| gameType := "R"; teams_home_team_id := 15;
                  teams_away_team_id := 6 |})]). }
  split; [exact Hperm|].
  exact (proj2 (counts_do_not_depend_on_order sample.home_and_home
                  (rev sample.home_and_home) "R" 6 Hperm)).
Defined.
End Sides.

(** ** The callback as a whole *)

Section Callback.
Import nhl_api app view typed.


Lemma filter_keys (m : ScheduleIndex) :
  map fst (filter (fun kv => in_directory (fst kv)) (PyDict.items m)) =
  filter in_directory (PyDict.keys m).
Proof.
  unfold PyDict.items, PyDict.keys.
  induction m as [|[k v] m IH]; simpl; [reflexivity|].
  destruct (in_directory k); simpl; now rewrite IH.
Qed.



(** X7.  The count of a row is the number of matching games its team plays:
    those at home plus those away.  The rows are built for the keys of the
    aggregation that are in the directory, in the order of the keys. *)
Theorem game_count_is_games_played :
  forall (schedule : list DateGroup) (game_type : string),
    exists data : list Row,
      make_data (get_game_by_teams schedule game_type) = Ok data /\
      Forall2
        (fun team_id row =>
           PyDict.get String.eqb (str team_id) TEAM_ABBR = Some (team row) /\
           game_count row =
           home_games schedule game_type team_id
           + away_games schedule game_type team_id)
        (filter in_directory (PyDict.keys (get_game_by_teams schedule game_type)))
        data.
Proof.
  intros schedule game_type.
  destruct (build_data_rows TEAM_ABBR
              (PyDict.items (get_game_by_teams schedule game_type)))
    as (data & Hdata & Hrows).
  exists data. split; [exact Hdata|].
  rewrite <- filter_keys.
  assert (Hin : forall kv,
             In kv (filter (fun kv => in_directory (fst kv))
                           (PyDict.items (get_game_by_teams schedule game_type))) ->
             List.length (snd kv) =
             home_games schedule game_type (fst kv)
             + away_games schedule game_type (fst kv)).
  { intros [k played] Hkv. apply filter_In in Hkv. destruct Hkv as [Hkv _].
    simpl. rewrite (played_by_item schedule game_type k played Hkv).
    rewrite played_by_get_game_by_teams. apply length_contribution. }
  change (fun kv : Z * list TeamGameRecord =>
            in_list (str (fst kv)) (PyDict.keys TEAM_ABBR))
    with (fun kv : Z * list TeamGameRecord => in_directory (fst kv)) in Hrows.
  remember (filter (fun kv : Z * list TeamGameRecord => in_directory (fst kv))
                   (PyDict.items (get_game_by_teams schedule game_type))) as shown.
  clear Heqshown Hdata. revert Hin.
  induction Hrows as [|kv row kvs rows [Hget Hcount] _ IH]; intros Hin;
    cbn [map]; constructor.
  - split; [exact Hget|]. rewrite Hcount. apply Hin. now left.
  - apply IH. intros kv' Hkv'. apply Hin. now right.
Qed.
End Callback.

(** ** The labels of the rows *)

Section Labels.
Import nhl_api app view.







End Labels.

(** ** The typed reading of a response *)

Section TypedReading.
Import raw typed.

Lemma traverse_map (A B : Type) (enc : A -> B) (dec : B -> option A) (l : list A) :
  (forall x, dec (enc x) = Some x) -> traverse dec (map enc l) = Some l.
Proof.
  intros Hround. induction l as [|x l IH]; simpl; [reflexivity|].
  now rewrite Hround, IH.
Qed.

Lemma decode_encode_game (game : nhl_api.Game) :
  decode_game (encode_game game) = Some game.
Proof. destruct game. reflexivity. Qed.

Lemma decode_encode_date (group : nhl_api.DateGroup) :
  decode_date (encode_date group) = Some group.
Proof.
  destruct group as [d played]. unfold decode_date, encode_date, subscript.
  cbn [nhl_api.date nhl_api.games PyDict.get String.eqb Ascii.eqb Bool.eqb].
  now rewrite (traverse_map _ _ encode_game decode_game played decode_encode_game).
Qed.

(** Writing a typed schedule as JSON and reading it back gives the
    schedule. *)
Theorem decode_encode_schedule :
  forall schedule : list nhl_api.DateGroup,
    decode_schedule (encode_schedule schedule) = Some schedule.
Proof.
  intros schedule. unfold decode_schedule, encode_schedule.
  apply traverse_map, decode_encode_date.
Qed.

Lemma add_record_typed (date game : JSON) (d t : string) (team other : Z)
      (side : string) (m : nhl_api.ScheduleIndex) :
  subscript date "date" = Ok (JStr d) ->
  subscript game "gameType" = Ok (JStr t) ->
  add_record date game (JNum team) (JNum other) side (encode_index m) =
  Ok (encode_index
        (nhl_api.add_record team
           {| nhl_api.rec_date := d; nhl_api.against := other;
              nhl_api.location := side; nhl_api.type := t |} m)).
Proof.
  intros Hd Ht.
  unfold add_record, contains, get, set, record, nhl_api.add_record.
  rewrite Hd, Ht. cbn [hashable bind].
  rewrite contains_encode, get_encode.
  unfold nhl_api.contains. rewrite contains_get. fold (nhl_api.get team m).
  destruct (nhl_api.get team m) as [played|]; cbn [option_map bind].
  - rewrite <- set_encode, map_app. reflexivity.
  - rewrite <- set_encode. reflexivity.
Qed.

Lemma process_game_typed (game_type : string) (date game : JSON) (d : string)
      (g : nhl_api.Game) (m : nhl_api.ScheduleIndex) :
  subscript date "date" = Ok (JStr d) ->
  decode_game game = Some g ->
  process_game game_type date (encode_index m) game =
  Ok (encode_index (nhl_api.process_game game_type d m g)).
Proof.
  intros Hd Hg. unfold decode_game in Hg.
  destruct (subscript game "gameType") as [[| | |t| |]|] eqn:Ht; try discriminate.
  destruct (team_id game "home") as [[| |home| | |]|] eqn:Hhome; try discriminate.
  destruct (team_id game "away") as [[| |away| | |]|] eqn:Haway; try discriminate.
  injection Hg as <-.
  unfold process_game, nhl_api.process_game, passes, nhl_api.passes.
  rewrite Ht. cbn [nhl_api.gameType nhl_api.teams_home_team_id
                   nhl_api.teams_away_team_id bind str_eq].
  destruct (String.eqb game_type "all"); cbn [orb bind].
  - rewrite Hhome, Haway. cbn [bind].
    rewrite (add_record_typed date game d t home away "home" m Hd Ht). cbn [bind].
    apply (add_record_typed date game d t away home "away" _ Hd Ht).
  - destruct (String.eqb game_type t); [|reflexivity].
    rewrite Hhome, Haway. cbn [bind].
    rewrite (add_record_typed date game d t home away "home" m Hd Ht). cbn [bind].
    apply (add_record_typed date game d t away home "away" _ Hd Ht).
Qed.

Lemma for_each_traverse (A B S T : Type) (body : T -> B -> result T)
      (step : S -> A -> S) (enc_state : S -> T) (dec : B -> option A)
      (xs : list B) :
  (forall acc x y, dec x = Some y ->
                   body (enc_state acc) x = Ok (enc_state (step acc y))) ->
  forall ys acc,
    traverse dec xs = Some ys ->
    for_each body xs (enc_state acc) = Ok (enc_state (fold_left step ys acc)).
Proof.
  intros Hbody. induction xs as [|x xs IH]; intros ys acc Hdec; simpl in *.
  - injection Hdec as <-. reflexivity.
  - destruct (dec x) as [y|] eqn:Hx; [|discriminate].
    destruct (traverse dec xs) as [ys'|]; [|discriminate].
    injection Hdec as <-. rewrite (Hbody acc x y Hx). simpl. now apply IH.
Qed.

Lemma process_date_typed (game_type : string) (date : JSON)
      (group : nhl_api.DateGroup) (m : nhl_api.ScheduleIndex) :
  decode_date date = Some group ->
  process_date game_type (encode_index m) date =
  Ok (encode_index
        (fold_left (nhl_api.process_game game_type (nhl_api.date group))
                   (nhl_api.games group) m)).
Proof.
  intros Hdec. unfold decode_date in Hdec.
  destruct (subscript date "date") as [[| | |d| |]|] eqn:Hd; try discriminate.
  destruct (subscript date "games") as [[| | | |listed|]|] eqn:Hgames;
    try discriminate.
  destruct (traverse decode_game listed) as [played|] eqn:Hplayed; [|discriminate].
  injection Hdec as <-. unfold process_date. rewrite Hgames. cbn [bind iterate].
  cbn [nhl_api.date nhl_api.games].
  apply for_each_traverse with (dec := decode_game); [|exact Hplayed].
  intros acc game g Hg. now apply process_game_typed.
Qed.

Lemma get_game_by_teams_typed (schedule : JSON)
      (typed_schedule : list nhl_api.DateGroup) (game_type : string) :
  decode_schedule schedule = Some typed_schedule ->
  get_game_by_teams schedule game_type =
  Ok (encode_index (nhl_api.get_game_by_teams typed_schedule game_type)).
Proof.
  intros Hdec.
  destruct schedule as [| | | |dates|]; try discriminate.
  unfold get_game_by_teams, nhl_api.get_game_by_teams. cbn [bind iterate].
  change (for_each (process_date game_type) dates [])
    with (for_each (process_date game_type) dates (encode_index [])).
  apply for_each_traverse with
    (dec := decode_date)
    (step := fun m d =>
               fold_left (nhl_api.process_game game_type (nhl_api.date d))
                         (nhl_api.games d) m);
    [|exact Hdec].
  intros acc date group Hgroup. now apply process_date_typed.
Qed.

(** X9.  The loops read five fields and nothing else.  On any JSON schedule
    whose date groups have a string 'date' and a list 'games', and whose
    games have a string 'gameType' and integer team ids, whatever other
    members the objects have, the function raises nothing and returns the
    dictionary of the typed aggregator on the schedule read from these
    fields. *)
Theorem other_fields_are_ignored :
  forall (schedule : JSON) (typed_schedule : list nhl_api.DateGroup)
         (game_type : string),
    decode_schedule schedule = Some typed_schedule ->
    get_game_by_teams schedule game_type =
    Ok (encode_index (nhl_api.get_game_by_teams typed_schedule game_type)).
Proof.
  intros schedule typed_schedule game_type Hdec.
  now apply get_game_by_teams_typed.
Qed.

Lemma other_fields_are_ignored_witness :
  decode_schedule sample2.docstring_dates = Some sample2.washington_boston /\
  get_game_by_teams sample2.docstring_dates "R" =
  Ok (encode_index (nhl_api.get_game_by_teams sample2.washington_boston "R")).
Proof.
  assert (Hdec : decode_schedule sample2.docstring_dates
                 = Some sample2.washington_boston) by reflexivity.
  split; [exact Hdec|].
  exact (other_fields_are_ignored sample2.docstring_dates
           sample2.washington_boston "R" Hdec).
Defined.
End TypedReading.

(** ** The request and the response *)

Section Fetch.
Import raw typed.

Lemma append_inj_l (p x y : string) : (p ++ x = p ++ y)%string -> x = y.
Proof.
  induction p as [|c p IH]; simpl; [trivial|]. intros [= H]. now apply IH.
Qed.

Lemma append_same_length (a a' x y : string) :
  String.length a = String.length a' ->
  (a ++ x = a' ++ y)%string -> a = a' /\ x = y.
Proof.
  revert a'. induction a as [|c a IH]; intros [|c' a']; simpl; try discriminate.
  - auto.
  - intros [= Hlen] [= -> H]. destruct (IH a' Hlen H) as [-> ->]. auto.
Qed.

(** X10.  For start dates of the same length, as the ten characters of the
    dates the picker gives, the URL determines the two dates: different
    periods are different requests. *)
Theorem schedule_url_determines_dates :
  forall start_date end_date start_date' end_date' : string,
    String.length start_date = String.length start_date' ->
    fetch.schedule_url start_date end_date =
    fetch.schedule_url start_date' end_date' ->
    start_date = start_date' /\ end_date = end_date'.
Proof.
  intros a b a' b' Hlen Hurl. unfold fetch.schedule_url in Hurl.
  apply append_inj_l in Hurl.
  destruct (append_same_length a a' _ _ Hlen Hurl) as [-> Hrest].
  apply append_inj_l in Hrest. auto.
Qed.

Lemma schedule_url_determines_dates_witness :
  String.length "2022-10-12" = String.length "2022-10-12" /\
  fetch.schedule_url "2022-10-12" "2022-10-13" =
  "https://statsapi.web.nhl.com/api/v1/schedule?startDate=2022-10-12&endDate=2022-10-13"%string /\
  "2022-10-12"%string = "2022-10-12"%string /\
  "2022-10-13"%string = "2022-10-13"%string.
Proof.
  split; [reflexivity|]. split; [reflexivity|].
  exact (schedule_url_determines_dates "2022-10-12" "2022-10-13"
           "2022-10-12" "2022-10-13" eq_refl eq_refl).
Defined.

(** The dates are not escaped: without the condition on the lengths two
    different pairs of strings give the same URL. *)
Example schedule_url_unescaped :
  fetch.schedule_url "1" "2&endDate=3" = fetch.schedule_url "1&endDate=2" "3".
Proof. reflexivity. Qed.

(** X11.  From the request to the dictionary.  When the body of the response
    has a ['dates'] that reads as a typed schedule, the function returns
    the dictionary of the typed aggregator on that schedule.  When the
    body is an object without ['dates'], as an error message of the
    service is, the function raises [KeyError] at [r_dict['dates']], and
    when the body is not an object it raises [TypeError]. *)
Theorem get_game_by_teams_from_response :
  forall (response : string -> JSON) (start_date end_date game_type : string),
    (forall dates typed_schedule,
        subscript (response (fetch.schedule_url start_date end_date)) "dates"
        = Ok dates ->
        decode_schedule dates = Some typed_schedule ->
        fetch.get_game_by_teams response start_date end_date game_type =
        Ok (encode_index (nhl_api.get_game_by_teams typed_schedule game_type)))
    /\
    (forall members,
        response (fetch.schedule_url start_date end_date) = JObj members ->
        PyDict.get String.eqb "dates"%string members = None ->
        fetch.get_game_by_teams response start_date end_date game_type =
        Raise KeyError)
    /\
    ((forall members,
         response (fetch.schedule_url start_date end_date) <> JObj members) ->
     fetch.get_game_by_teams response start_date end_date game_type =
     Raise TypeError).
Proof.
  intros response start_date end_date game_type.
  unfold fetch.get_game_by_teams, fetch.get_games_by_dates.
  split; [|split].
  - intros dates typed_schedule -> Hdec. cbn [bind].
    now apply get_game_by_teams_typed.
  - intros members -> Hnone. unfold subscript. rewrite Hnone. reflexivity.
  - intros Hnot.
    destruct (response (fetch.schedule_url start_date end_date))
      as [| | | | |members]; try reflexivity.
    now destruct (Hnot members).
Qed.

Lemma get_game_by_teams_from_response_witness :
  fetch.get_game_by_teams sample2.docstring_service "2022-10-12" "2022-10-13" "R" =
  Ok [ (JNum 15, [ JObj [ ("date", JStr "2022-10-12"); ("against", JNum 6);
                          ("location", JStr "home"); ("type", JStr "R") ] ]);
       (JNum 6, [ JObj [ ("date", JStr "2022-10-12"); ("against", JNum 15);
                         ("location", JStr "away"); ("type", JStr "R") ] ]) ]%string
  /\
  fetch.get_game_by_teams sample2.error_service "2022-10-13" "2022-10-12" "R" =
  Raise KeyError
  /\
  fetch.get_game_by_teams (fun _ => JArr []) "2022-10-12" "2022-10-13" "R" =
  Raise TypeError.
Proof.
  split; [|split].
  - exact (proj1 (get_game_by_teams_from_response sample2.docstring_service
                    "2022-10-12" "2022-10-13" "R")
             sample2.docstring_dates sample2.washington_boston eq_refl eq_refl).
  - exact (proj1 (proj2 (get_game_by_teams_from_response sample2.error_service
                           "2022-10-13" "2022-10-12" "R"))
             _ eq_refl eq_refl).
  - apply (proj2 (proj2 (get_game_by_teams_from_response (fun _ => JArr [])
                           "2022-10-12" "2022-10-13" "R"))).
    intros members. discriminate.
Defined.
End Fetch.

(** ** When the untyped aggregator raises, and what it returns *)

Section Reads.
Import raw reads.

Lemma add_record_ok_iff (date game team other : JSON) (side : string)
      (m : ScheduleIndex) :
  (exists m', add_record date game team other side m = Ok m') <->
  hashable team && present (subscript date "date")
  && present (subscript game "gameType") = true.
Proof.
  split.
  - intros [m' Hok].
    destruct (hashable team) eqn:Hh;
      [|unfold add_record, contains in Hok; rewrite Hh in Hok; discriminate].
    destruct (present (subscript date "date")
              && present (subscript game "gameType")) eqn:Hp.
    + now rewrite <- andb_assoc, Hp.
    + destruct (add_record_raise date game team other side m Hp) as [e He].
      congruence.
  - intros H. apply andb_true_iff in H. destruct H as [H Ht].
    apply andb_true_iff in H. destruct H as [Hh Hd].
    now apply add_record_ok.
Qed.

Lemma process_game_ok_iff (game_type : string) (date game : JSON)
      (m : ScheduleIndex) :
  (exists m', process_game game_type date m game = Ok m') <->
  game_ok game_type date game = true.
Proof.
  unfold process_game, game_ok.
  destruct (passes game_type game) as [[|]|e]; cbn [bind].
  - destruct (team_id game "home") as [home|e1]; cbn [bind];
      [|split; [intros [m' H]; discriminate | discriminate]].
    destruct (team_id game "away") as [away|e2]; cbn [bind];
      [|split; [intros [m' H]; discriminate | discriminate]].
    split.
    + intros [m' Hok].
      destruct (add_record date game home away "home" m) as [m1|e1] eqn:H1;
        [|discriminate].
      cbn [bind] in Hok.
      pose proof (proj1 (add_record_ok_iff date game home away "home" m)
                    (ex_intro _ m1 H1)) as Hhome.
      pose proof (proj1 (add_record_ok_iff date game away home "away" m1)
                    (ex_intro _ m' Hok)) as Haway.
      apply andb_true_iff in Hhome. destruct Hhome as [Hhome Ht].
      apply andb_true_iff in Hhome. destruct Hhome as [Hh Hd].
      apply andb_true_iff in Haway. destruct Haway as [Haway _].
      apply andb_true_iff in Haway. destruct Haway as [Ha _].
      now rewrite Hh, Ha, Hd, Ht.
    + intros H. apply andb_true_iff in H. destruct H as [H Ht].
      apply andb_true_iff in H. destruct H as [H Hd].
      apply andb_true_iff in H. destruct H as [Hh Ha].
      destruct (add_record_ok date game home away "home" m Hd Ht Hh) as [m1 ->].
      cbn [bind]. now apply add_record_ok.
  - split; [reflexivity | now eexists].
  - split; [intros [m' H]; discriminate | discriminate].
Qed.

Lemma for_each_ok_iff (A S : Type) (body : S -> A -> result S) (ok : A -> bool)
      (xs : list A) :
  (forall x acc, (exists acc', body acc x = Ok acc') <-> ok x = true) ->
  forall acc, (exists acc', for_each body xs acc = Ok acc') <-> forallb ok xs = true.
Proof.
  intros Hbody. induction xs as [|x xs IH]; intros acc; simpl.
  - split; [reflexivity | now eexists].
  - rewrite andb_true_iff, <- (Hbody x acc). split.
    + intros [acc' Hok]. destruct (body acc x) as [acc1|e] eqn:Hx; [|discriminate].
      split; [now eexists|]. apply (IH acc1). now exists acc'.
    + intros [[acc1 Hx] Hrest]. rewrite Hx. cbn [bind]. now apply IH.
Qed.

Lemma process_date_ok_iff (game_type : string) (date : JSON) (m : ScheduleIndex) :
  (exists m', process_date game_type m date = Ok m') <->
  date_ok game_type date = true.
Proof.
  unfold process_date, date_ok.
  destruct (subscript date "games") as [listed|e]; cbn [bind];
    [|split; [intros [m' H]; discriminate | discriminate]].
  destruct (iterate listed) as [games|e]; cbn [bind];
    [|split; [intros [m' H]; discriminate | discriminate]].
  apply for_each_ok_iff. intros game acc. apply process_game_ok_iff.
Qed.

(** X12.  Whether the aggregation raises does not depend on the teams met so
    far but only on what can be read: it returns a dictionary exactly when
    the schedule and the ['games'] of every date group can be iterated,
    the ['gameType'] of every game can be read (with a filter other than
    'all'), and every game that passes the filter has its two team ids,
    both hashable, its ['gameType'] and the ['date'] of its group;
    otherwise it raises. *)
Theorem aggregation_raises_exactly_when :
  forall (schedule : JSON) (game_type : string),
    (schedule_ok game_type schedule = true ->
     exists games_per_team, get_game_by_teams schedule game_type = Ok games_per_team)
    /\
    (schedule_ok game_type schedule = false ->
     exists e, get_game_by_teams schedule game_type = Raise e).
Proof.
  intros schedule game_type.
  assert (Hiff : (exists m, get_game_by_teams schedule game_type = Ok m) <->
                 schedule_ok game_type schedule = true).
  { unfold get_game_by_teams, schedule_ok.
    destruct (iterate schedule) as [dates|e]; cbn [bind];
      [|split; [intros [m' H]; discriminate | discriminate]].
    apply for_each_ok_iff. intros date acc. apply process_date_ok_iff. }
  split.
  - apply Hiff.
  - intros Hfalse.
    destruct (get_game_by_teams schedule game_type) as [m|e] eqn:H;
      [|now exists e].
    assert (Htrue : schedule_ok game_type schedule = true)
      by (apply Hiff; now exists m).
    congruence.
Qed.

Lemma aggregation_raises_exactly_when_witness :
  (schedule_ok "P" sample.game_without_teams = true /\
   exists games_per_team,
     get_game_by_teams sample.game_without_teams "P" = Ok games_per_team)
  /\
  (schedule_ok "all" sample.game_without_teams = false /\
   exists e, get_game_by_teams sample.game_without_teams "all" = Raise e).
Proof.
  split; (split; [reflexivity|]).
  - exact (proj1 (aggregation_raises_exactly_when sample.game_without_teams "P")
             eq_refl).
  - exact (proj2 (aggregation_raises_exactly_when sample.game_without_teams "all")
             eq_refl).
Defined.
End Reads.

(** ** The shape of the untyped result *)

Section Shape.
Import raw reads.

Lemma key_eqb_sym (a b : JSON) : key_eqb a b = key_eqb b a.
Proof.
  destruct a as [|x|x|x|x|x], b as [|y|y|y|y|y]; simpl; try reflexivity.
  - now destruct x, y.
  - apply Z.eqb_sym.
  - apply String.eqb_sym.
Qed.

Lemma for_each_invariant (A S : Type) (P : S -> Prop) (body : S -> A -> result S)
      (xs : list A) :
  (forall acc x acc', P acc -> body acc x = Ok acc' -> P acc') ->
  forall acc acc', P acc -> for_each body xs acc = Ok acc' -> P acc'.
Proof.
  intros Hbody. induction xs as [|x xs IH]; intros acc acc' Hacc Hrun; simpl in Hrun.
  - now injection Hrun as <-.
  - destruct (body acc x) as [acc1|e] eqn:Hx; [|discriminate].
    apply (IH acc1 acc'); [now apply (Hbody acc x) | exact Hrun].
Qed.

Lemma get_records (k : JSON) (played : list JSON) (m : ScheduleIndex) :
  forallb is_item m = true ->
  PyDict.get key_eqb k m = Some played ->
  forallb is_record played = true.
Proof.
  induction m as [|[k' v] m IH]; simpl; [discriminate|].
  intros Hm. apply andb_true_iff in Hm. destruct Hm as [Hitem Hm].
  destruct (key_eqb k k').
  - intros [= <-]. unfold is_item in Hitem. simpl in Hitem.
    now apply andb_true_iff in Hitem.
  - now apply IH.
Qed.

Lemma set_items (k : JSON) (v : list JSON) (m : ScheduleIndex) :
  forallb is_item m = true ->
  is_item (k, v) = true ->
  forallb is_item (PyDict.set key_eqb k v m) = true.
Proof.
  intros Hm Hkv. induction m as [|[k' v'] m IH]; simpl.
  - now rewrite Hkv.
  - simpl in Hm. apply andb_true_iff in Hm. destruct Hm as [Hitem Hm].
    destruct (key_eqb k k'); simpl.
    + rewrite Hm, andb_true_r.
      unfold is_item in *. simpl in *.
      apply andb_true_iff in Hitem. destruct Hitem as [Hitem _].
      apply andb_true_iff in Hitem. destruct Hitem as [Hk' _].
      apply andb_true_iff in Hkv. destruct Hkv as [Hkv Hrecs].
      apply andb_true_iff in Hkv. destruct Hkv as [_ Hlen].
      now rewrite Hk', Hlen, Hrecs.
    + now rewrite Hitem, (IH Hm).
Qed.

Lemma different_append (l : list JSON) (k : JSON) :
  ForallOrdPairs different l ->
  Forall (fun a => different a k) l ->
  ForallOrdPairs different (l ++ [k]).
Proof.
  induction 1 as [|a l Ha Hl IH]; intros Hk; simpl.
  - constructor; constructor.
  - inversion Hk as [|? ? Hak Hk']; subst. constructor; [|now apply IH].
    apply Forall_app. split; [exact Ha | now constructor].
Qed.

Lemma not_contained (k : JSON) (m : ScheduleIndex) :
  PyDict.contains key_eqb k m = false ->
  Forall (fun a => different a k) (PyDict.keys m).
Proof.
  induction m as [|[k' v] m IH]; simpl; [constructor|].
  destruct (key_eqb k k') eqn:E; [discriminate|].
  intros H. constructor; [|now apply IH].
  unfold different. now rewrite key_eqb_sym.
Qed.

Lemma set_keys_different (k : JSON) (v : list JSON) (m : ScheduleIndex) :
  ForallOrdPairs different (PyDict.keys m) ->
  ForallOrdPairs different (PyDict.keys (PyDict.set key_eqb k v m)).
Proof.
  intros Hm. rewrite keys_set.
  destruct (PyDict.contains key_eqb k m) eqn:C; [exact Hm|].
  apply different_append; [exact Hm | now apply not_contained].
Qed.

Lemma add_record_shape (date game team other : JSON) (side : string)
      (m m' : ScheduleIndex) :
  add_record date game team other side m = Ok m' ->
  hashable other = true ->
  String.eqb side "home" || String.eqb side "away" = true ->
  well_shaped m ->
  well_shaped m' /\ hashable team = true.
Proof.
  intros Hadd Hother Hside [Hitems Hkeys].
  unfold add_record, contains, get, set, record in Hadd.
  destruct (hashable team) eqn:Hteam; [|discriminate]. cbn [bind] in Hadd.
  destruct (subscript date "date") as [d|e]; cbn [bind] in Hadd;
    [|destruct (PyDict.contains key_eqb team m);
      [destruct (PyDict.get key_eqb team m)|]; discriminate].
  destruct (subscript game "gameType") as [t|e]; cbn [bind] in Hadd;
    [|destruct (PyDict.contains key_eqb team m);
      [destruct (PyDict.get key_eqb team m)|]; discriminate].
  assert (Hrec : is_record (JObj [("date"%string, d); ("against"%string, other);
                                  ("location"%string, JStr side);
                                  ("type"%string, t)]) = true).
  { unfold is_record. now rewrite Hother, Hside. }
  split; [|reflexivity].
  destruct (PyDict.contains key_eqb team m).
  - destruct (PyDict.get key_eqb team m) as [played|] eqn:G; [|discriminate].
    cbn [bind] in Hadd. injection Hadd as <-.
    split; [|now apply set_keys_different].
    apply set_items; [exact Hitems|].
    unfold is_item. cbn [fst snd]. rewrite Hteam, length_app, forallb_app.
    rewrite (get_records team played m Hitems G).
    cbn [forallb List.length]. rewrite Hrec, Nat.add_comm. reflexivity.
  - injection Hadd as <-.
    split; [|now apply set_keys_different].
    apply set_items; [exact Hitems|].
    unfold is_item. cbn [fst snd forallb List.length]. now rewrite Hteam, Hrec.
Qed.

Lemma process_game_shape (game_type : string) (date game : JSON)
      (m m' : ScheduleIndex) :
  well_shaped m ->
  process_game game_type date m game = Ok m' ->
  well_shaped m'.
Proof.
  intros Hm Hrun. unfold process_game in Hrun.
  destruct (passes game_type game) as [[|]|e]; cbn [bind] in Hrun;
    [| now injection Hrun as <- | discriminate].
  destruct (team_id game "home") as [home|e]; cbn [bind] in Hrun; [|discriminate].
  destruct (team_id game "away") as [away|e]; cbn [bind] in Hrun; [|discriminate].
  destruct (add_record date game home away "home" m) as [m1|e] eqn:H1;
    [|discriminate].
  cbn [bind] in Hrun.
  assert (Haway : hashable away = true).
  { unfold add_record, contains in Hrun.
    destruct (hashable away); [reflexivity | discriminate]. }
  destruct (add_record_shape _ _ _ _ _ _ _ H1 Haway eq_refl Hm) as [Hm1 Hhome].
  exact (proj1 (add_record_shape _ _ _ _ _ _ _ Hrun Hhome eq_refl Hm1)).
Qed.

(** X13.  Whatever JSON it is given, a dictionary that the aggregation returns
    is well formed: its keys can be hashed and no two of them are equal as
    Python compares them, every list is non-empty, and every element of a
    list is a record with the members 'date', 'against', 'location' and
    'type' in this order, 'location' being 'home' or 'away' and 'against'
    a hashable value. *)
Theorem result_is_well_shaped :
  forall (schedule : JSON) (game_type : string) (games_per_team : ScheduleIndex),
    get_game_by_teams schedule game_type = Ok games_per_team ->
    forallb is_item games_per_team = true /\
    ForallOrdPairs (fun a b => key_eqb a b = false) (PyDict.keys games_per_team).
Proof.
  intros schedule game_type games_per_team Hrun.
  unfold get_game_by_teams in Hrun.
  destruct (iterate schedule) as [dates|e]; cbn [bind] in Hrun; [|discriminate].
  apply (for_each_invariant _ _ well_shaped (process_date game_type) dates)
    with (acc := []); [| split; [reflexivity | constructor] | exact Hrun].
  intros acc date acc' Hacc Hdate. unfold process_date in Hdate.
  destruct (subscript date "games") as [listed|e]; cbn [bind] in Hdate;
    [|discriminate].
  destruct (iterate listed) as [games|e]; cbn [bind] in Hdate; [|discriminate].
  apply (for_each_invariant _ _ well_shaped (process_game game_type date) games)
    with (acc := acc); [| exact Hacc | exact Hdate].
  intros acc0 game acc1 Hacc0. now apply process_game_shape.
Qed.

Lemma result_is_well_shaped_witness :
  get_game_by_teams sample2.docstring_dates "all" =
  Ok [ (JNum 15, [ JObj [ ("date", JStr "2022-10-12"); ("against", JNum 6);
                          ("location", JStr "home"); ("type", JStr "R") ] ]);
       (JNum 6, [ JObj [ ("date", JStr "2022-10-12"); ("against", JNum 15);
                         ("location", JStr "away"); ("type", JStr "R") ] ]) ]%string
  /\
  ForallOrdPairs (fun a b => key_eqb a b = false) [JNum 15; JNum 6].
Proof.
  split; [reflexivity|].
  exact (proj2 (result_is_well_shaped sample2.docstring_dates "all" _ eq_refl)).
Defined.
End Shape.

(** ** The total of the table *)

Section Total.
Import nhl_api app view.

Lemma list_sum_perm (l l' : list nat) : Permutation l l' -> list_sum l = list_sum l'.
Proof. induction 1; simpl; lia. Qed.

Lemma data_total (kvs : list (Z * list TeamGameRecord)) (data : list Row) :
  Forall2
    (fun kv row =>
       PyDict.get String.eqb (str (fst kv)) TEAM_ABBR = Some (team row) /\
       game_count row = List.length (snd kv))
    kvs data ->
  list_sum (map game_count data) =
  list_sum (map (fun kv => List.length (snd kv)) kvs).
Proof.
  induction 1 as [|kv row kvs rows [_ Hcount] _ IH]; cbn [map list_sum];
    [reflexivity|].
  rewrite Hcount. simpl. now rewrite IH.
Qed.

Lemma filter_total (p : Z * list TeamGameRecord -> bool)
      (kvs : list (Z * list TeamGameRecord)) :
  list_sum (map (fun kv => List.length (snd kv)) (filter p kvs)) <=
  list_sum (map (fun kv => List.length (snd kv)) kvs).
Proof.
  induction kvs as [|kv kvs IH]; simpl; [lia|].
  destruct (p kv); simpl; lia.
Qed.

Lemma filter_all (A : Type) (p : A -> bool) (l : list A) :
  (forall x, In x l -> p x = true) -> filter p l = l.
Proof.
  induction l as [|x l IH]; intros H; simpl; [reflexivity|].
  rewrite (H x (or_introl eq_refl)). f_equal. apply IH.
  intros y Hy. apply H. now right.
Qed.

(** X14.  The counts of a table add up to at most twice the number of matching
    games, each game being counted for its two teams, and to exactly
    twice that number when every team of the aggregation is in the
    directory. *)
Theorem table_total :
  forall (schedule : list DateGroup) (game_type : string)
         (rows : list Row) (highest_count lowest_count : nat),
    update_table schedule game_type =
    Ok (DataTable rows highest_count lowest_count) ->
    list_sum (map game_count rows) <= 2 * matching_games schedule game_type /\
    ((forall team,
         In team (PyDict.keys (get_game_by_teams schedule game_type)) ->
         in_directory team = true) ->
     list_sum (map game_count rows) = 2 * matching_games schedule game_type).
Proof.
  intros schedule game_type rows highest_count lowest_count Htable.
  destruct (build_data_rows TEAM_ABBR
              (PyDict.items (get_game_by_teams schedule game_type)))
    as (data & Hdata & Hrows).
  unfold update_table, make_data in Htable. rewrite Hdata in Htable.
  cbn [bind] in Htable.
  destruct (make_table_rows _ _ _ _ Htable) as [-> _].
  rewrite <- (list_sum_perm _ _
                (Permutation_map game_count (sort_reverse_perm Row game_count data))).
  rewrite (data_total _ _ Hrows).
  assert (Htotal : list_sum (map (fun kv : Z * list TeamGameRecord =>
                                    List.length (snd kv))
                                 (PyDict.items (get_game_by_teams schedule game_type)))
                   = 2 * matching_games schedule game_type).
  { fold (total_records (get_game_by_teams schedule game_type)).
    rewrite get_game_by_teams_steps, total_records_steps. reflexivity. }
  split.
  - rewrite <- Htotal. apply filter_total.
  - intros Hall. rewrite filter_all; [exact Htotal|].
    intros [k v] Hin. apply Hall.
    unfold PyDict.keys. change k with (fst (k, v)). now apply in_map.
Qed.

Lemma table_total_witness :
  update_table sample.boston_washington "R" =
  Ok (DataTable [ {| team := "BOS"; game_count := 1 |};
                  {| team := "WSH"; game_count := 1 |} ] 1 1) /\
  (forall team,
      In team (PyDict.keys (get_game_by_teams sample.boston_washington "R")) ->
      in_directory team = true) /\
  list_sum [1; 1] = 2 * matching_games sample.boston_washington "R".
Proof.
  assert (Hall : forall team,
             In team (PyDict.keys (get_game_by_teams sample.boston_washington "R")) ->
             in_directory team = true).
  { intros team [<- | [<- | []]]; reflexivity. }
  split; [reflexivity|]. split; [exact Hall|].
  exact (proj2 (table_total sample.boston_washington "R" _ 1 1 eq_refl) Hall).
Defined.
End Total.
